(** * Footage ingestion, review and permission gates of waldo

    A shallow embedding of the two API surfaces of the repository:

    - [Backend]: the path-style HTTP handlers of
      [apps/backend/src/controllers/footage.controller.ts]
      (express-zod-api over a document store);
    - [Web]: the RPC procedures of
      [apps/web/server/trpc/router/gameplay.ts] together with the
      [isAuthed] middleware of [apps/web/server/trpc/trpc.ts]
      (tRPC over a relational store).

    Handlers are asynchronous functions that read and write a record store,
    start downloads, launch the clip extractor and may throw.  They are
    embedded as computations in a state-and-exception monad whose state is
    the store together with the trace of external effects performed so far.
    A thrown exception keeps the state reached at the point of the throw:
    nothing is rolled back, exactly as in the source. *)

From Stdlib Require Import String List ZArith Bool Lia QArith Qround Permutation.
Import ListNotations.
Local Open Scope string_scope.
Local Open Scope Z_scope.

Set Implicit Arguments.

(** ** Outcomes and the handler monad *)

(** What an [async] handler amounts to: a value, a thrown exception, or a
    promise that never settles. *)
Inductive Outcome (E A : Type) : Type :=
| Ok (a : A)
| Throw (e : E)
| Pending.

Arguments Ok {E A} a.
Arguments Throw {E A} e.
Arguments Pending {E A}.

(** External effects a handler performs besides store access. *)
Inductive Effect : Type :=
| GetInfo (url : string)                      (* ytdl.getInfo(url) *)
| Download (url file : string)                (* ytdl(url).pipe(fs.createWriteStream(file)) *)
| Spawn (cmd : string) (args : list string)   (* child_process.spawn *)
| ParseClips (footageId file : string).       (* parseClips(footageId, file) *)

Section HandlerMonad.
Variables St E : Type.

Definition M (A : Type) : Type := St -> Outcome E A * St.

Definition ret {A} (a : A) : M A := fun s => (Ok a, s).

Definition bind {A B} (c : M A) (k : A -> M B) : M B :=
  fun s =>
    match c s with
    | (Ok a, s') => k a s'
    | (Throw e, s') => (Throw e, s')
    | (Pending, s') => (Pending, s')
    end.

Definition throw {A} (e : E) : M A := fun s => (Throw e, s).

Definition never {A} : M A := fun s => (Pending, s).

(** [try { c } catch (error) { h error }] *)
Definition tryCatch {A} (c : M A) (h : E -> M A) : M A :=
  fun s =>
    match c s with
    | (Throw e, s') => h e s'
    | r => r
    end.

Definition gets {A} (f : St -> A) : M A := fun s => (Ok (f s), s).

Definition modify (f : St -> St) : M unit := fun s => (Ok tt, f s).
End HandlerMonad.

Arguments ret {St E A} a.
Arguments bind {St E A B} c k.
Arguments throw {St E A} e.
Arguments never {St E A}.
Arguments tryCatch {St E A} c h.
Arguments gets {St E A} f.
Arguments modify {St E} f.

Declare Scope handler_scope.
Delimit Scope handler_scope with handler.
Notation "x <- c ;; k" := (bind c (fun x => k))
  (at level 61, c at next level, right associativity) : handler_scope.
Notation "c ;;; k" := (bind c (fun _ => k))
  (at level 61, right associativity) : handler_scope.

(** ** List helpers shared by both stores *)

(** Replace the first element satisfying [p] by its image under [f]
    (a single-row update addressed by a unique key). *)
Fixpoint update_first {A} (p : A -> bool) (f : A -> A) (l : list A) : list A :=
  match l with
  | [] => []
  | x :: r => if p x then f x :: r else x :: update_first p f r
  end.

(** Remove the first element satisfying [p] (a single-row delete). *)
Fixpoint remove_first {A} (p : A -> bool) (l : list A) : list A :=
  match l with
  | [] => []
  | x :: r => if p x then r else x :: remove_first p r
  end.

Definition isSome {A} (o : option A) : bool :=
  match o with Some _ => true | None => false end.

(** The one-character string holding a double quote. *)
Definition dquote : string := String (Ascii.ascii_of_nat 34) EmptyString.

(** ** The path-style HTTP API: footage.controller.ts *)

Module Backend.

(** [FootageZod]: the fields the controller writes. *)
Record Footage : Type := mkFootage {
  uuid : string;
  discordId : string;
  username : string;
  youtubeUrl : string;
  isCsgoFootage : bool;
  isAnalyzed : bool
}.

(** A clip document; the controller only ever filters on [footage]. *)
Record Clip : Type := mkClip {
  clipUuid : string;
  footage : string
}.

Record Store : Type := mkStore {
  footageDocs : list Footage;
  clipDocs : list Clip
}.

Record State : Type := mkState {
  store : Store;
  trace : list Effect
}.

(** [createHttpError(status, message)] *)
Record HttpError : Type := mkHttpError {
  status : Z;
  message : string
}.

Definition createHttpError (st : Z) (msg : string) : HttpError :=
  mkHttpError st msg.

(** Everything that can be thrown inside a handler: an [HttpError] (which
    is an [Error]), another [Error] raised by a library, or a value that
    is not an [Error]. *)
Inductive Exn : Type :=
| Http (e : HttpError)
| LibError (msg : string)
| NonError.

Definition H (A : Type) : Type := M State Exn A.

Definition perform (e : Effect) : H unit :=
  modify (fun s => mkState (store s) (trace s ++ [e])%list).

Definition setFootage (f : list Footage -> list Footage) : H unit :=
  modify (fun s =>
    mkState (mkStore (f (footageDocs (store s))) (clipDocs (store s))) (trace s)).

(** *** Store access (mongoose models [Footage] and [Clip]) *)

Definition Footage_findOne (p : Footage -> bool) : H (option Footage) :=
  gets (fun s => find p (footageDocs (store s))).

Definition Footage_find (p : Footage -> bool) : H (list Footage) :=
  gets (fun s => filter p (footageDocs (store s))).

Definition Clip_find (p : Clip -> bool) : H (list Clip) :=
  gets (fun s => filter p (clipDocs (store s))).

Definition Footage_create (f : Footage) : H unit :=
  setFootage (fun l => (l ++ [f])%list).

(** [findOneAndUpdate(filter, update)] without [{new: true}] resolves to
    the document as it was before the update, or to [null]. *)
Definition Footage_findOneAndUpdate (p : Footage -> bool) (upd : Footage -> Footage)
  : H (option Footage) :=
  (old <- Footage_findOne p ;;
   setFootage (update_first p upd) ;;;
   ret old)%handler.

(** [deleteOne(filter)] resolves to [{deletedCount}]. *)
Definition Footage_deleteOne (p : Footage -> bool) : H nat :=
  (old <- Footage_findOne p ;;
   setFootage (remove_first p) ;;;
   ret (if isSome old then 1%nat else 0%nat))%handler.

(** *** The outside world of one request *)

(** The [stdio] option of [spawn]. *)
Inductive Stdio : Type := stdio_pipe | stdio_inherit.

Record SpawnOptions : Type := mkSpawnOptions {
  shell : bool;
  stdio : Stdio
}.

(** The child process returned by [spawn]. *)
Record ChildProcess : Type := mkChild {
  hasStdout : bool;          (* [python.stdout] is a stream, not [null] *)
  closeCode : option Z       (* [Some c]: the 'close' event fires with code [c] *)
}.

Record Env : Type := mkEnv {
  uuidv4 : string;                       (* the fresh identifier drawn by [uuidv4()] *)
  getInfo : string -> option string;     (* [Some details], or [None] when it rejects *)
  writeFinishes : bool;                  (* the write stream emits 'finish' *)
  exitCode : option Z                    (* [Some c]: the child closes with code [c] *)
}.

(** The child [spawn] hands back: it has a [stdout] stream only when its
    standard streams are piped; under [stdio: 'inherit'] the child writes to
    the parent's streams and [stdout] is [null].  Whether and with what code
    the child closes is up to the program it runs. *)
Definition spawned (env : Env) (options : SpawnOptions) : ChildProcess :=
  {| hasStdout := match stdio options with
                  | stdio_pipe => true
                  | stdio_inherit => false
                  end;
     closeCode := exitCode env |}.

(** [{ shell: true, stdio: 'inherit' }] *)
Definition pythonOptions : SpawnOptions :=
  {| shell := true; stdio := stdio_inherit |}.


Definition ytdl_getInfo (env : Env) (url : string) : H string :=
  (perform (GetInfo url) ;;;
   match getInfo env url with
   | Some details => ret details
   | None => throw (LibError "getInfo")
   end)%handler.

(** *** POST /footage *)

Record CreateInput : Type := mkCreateInput {
  in_id : string;
  in_username : string;
  in_url : string
}.

Definition footageInput (footageId : string) (input : CreateInput) : Footage :=
  {| uuid := footageId;
     discordId := in_id input;
     username := in_username input;
     youtubeUrl := in_url input;
     isCsgoFootage := false;
     isAnalyzed := false |}.

(** [spawn(cmd, args, options)] *)
Definition spawn (env : Env) (cmd : string) (args : list string)
    (options : SpawnOptions) : H ChildProcess :=
  (perform (Spawn cmd args) ;;;
   ret (spawned env options))%handler.

(** The listener of the child's 'close' event. *)
Definition onClose (footageId : string) (input : CreateInput) : H unit :=
  Footage_create (footageInput footageId input).

(** The handler attaches its listeners to [python.stdout] first, which
    throws a [TypeError] when that stream is [null]; only then is the
    'close' listener registered.  The run of that listener is counted to
    the request that registered it.  The handler's [try] block ends without
    a [return]: when nothing is thrown the handler resolves to [undefined],
    here [None]. *)
Definition createFootage (env : Env) (input : CreateInput) : H (option Footage) :=
  (let url := in_url input in
   existingFootage <- Footage_findOne (fun f => youtubeUrl f =? url)%string ;;
   if isSome existingFootage then
     throw (Http (createHttpError 400 ("URL " ++ url ++ " has already been submitted.")))
   else
     tryCatch
       (let footageId := uuidv4 env in
        _details <- ytdl_getInfo env url ;;
        (* await new Promise(...): resolved by the writer's 'finish' *)
        perform (Download url (footageId ++ ".mp4")) ;;;
        (if writeFinishes env then ret tt else never) ;;;
        (* .then(() => { ... }) *)
        python <- spawn env "python3" ["autoClip.py"; footageId ++ ".mp4"; "clips"]
                    pythonOptions ;;
        (if hasStdout python then ret tt
         else throw (LibError "Cannot read properties of null (reading 'on')")) ;;;
        match closeCode python with
        | Some _ => onClose footageId input
        | None => ret tt
        end ;;;
        ret None)
       (fun error =>
          match error with
          | Http e => throw (Http (createHttpError 406 (message e)))
          | LibError msg => throw (Http (createHttpError 406 msg))
          | NonError =>
              throw (Http (createHttpError 500 "Something went wrong processing the video."))
          end))%handler.

(** *** GET /footage/user/:id *)

Definition getUserFootage (discordId_in : string) : H (list Footage) :=
  (footage <- Footage_find (fun f => discordId f =? discordId_in)%string ;;
   if (length footage =? 0)%nat then
     throw (Http (createHttpError 404 "No footage found with the provided User ID."))
   else ret footage)%handler.

(** *** GET /footage/clips/:uuid *)

Definition getFootageClips (uuid_in : string) : H (list Clip) :=
  (clips <- Clip_find (fun c => footage c =? uuid_in)%string ;;
   if (length clips =? 0)%nat then
     throw (Http (createHttpError 404
              ("No clips found for footage with uuid " ++ dquote ++ uuid_in ++ dquote)))
   else ret clips)%handler.

(** *** PATCH /footage/:uuid *)

Record UpdateInput : Type := mkUpdateInput {
  up_uuid : string;
  up_isAnalyzed : bool;
  up_isCsgoFootage : bool
}.

Definition updatedFootage (input : UpdateInput) (f : Footage) : Footage :=
  {| uuid := uuid f;
     discordId := discordId f;
     username := username f;
     youtubeUrl := youtubeUrl f;
     isCsgoFootage := up_isCsgoFootage input;
     isAnalyzed := up_isAnalyzed input |}.

(** The 412 is thrown inside the [try] and is itself an [Error], so the
    [catch] turns it into a 418 carrying the same message. *)
Definition updateFootage (input : UpdateInput) : H Footage :=
  (let filter := fun f => (uuid f =? up_uuid input)%string in
   tryCatch
     (result <- Footage_findOneAndUpdate filter (updatedFootage input) ;;
      match result with
      | None => throw (Http (createHttpError 412 "No document with that UUID was found."))
      | Some r => ret r
      end)
     (fun error =>
        match error with
        | Http e => throw (Http (createHttpError 418 (message e)))
        | LibError msg => throw (Http (createHttpError 418 msg))
        | NonError =>
            throw (Http (createHttpError 500 "Something went wrong processing the video."))
        end))%handler.

(** *** DELETE /footage/:uuid *)

Definition deleteFootage (uuid_in : string) : H string :=
  (deletedCount <- Footage_deleteOne (fun f => uuid f =? uuid_in)%string ;;
   if (deletedCount =? 0)%nat then
     throw (Http (createHttpError 404
              ("Footage with uuid " ++ dquote ++ uuid_in ++ dquote ++ " not found.")))
   else ret "Footage deleted successfully.")%handler.

(** *** GET /footage/:uuid *)

Section GetFootage.

(** [Footage.find().sort('-createdAt')]: the [createdAt] stamps are kept by
    the store and are not among the fields the controller handles, so the
    order the store returns the documents in is left open. *)
Variable sortByCreatedAtDesc : list Footage -> list Footage.

(** [if (uuid)] is false for a missing and for an empty [uuid].  [find]
    resolves to an array, never to [null], so the 404 of the listing branch
    cannot be thrown. *)
Definition getFootage (uuid_in : option string) : H (list Footage) :=
  (let listAll :=
     gets (fun s => sortByCreatedAtDesc (footageDocs (store s))) in
   match uuid_in with
   | None => listAll
   | Some u =>
       if (u =? EmptyString)%string then listAll
       else
         footage <- Footage_findOne (fun f => uuid f =? u)%string ;;
         match footage with
         | None =>
             throw (Http (createHttpError 404
                      "No footage document with the UUID provided could be found."))
         | Some f => ret [f]
         end
   end)%handler.

End GetFootage.

End Backend.

(** ** The RPC layer: trpc.ts and router/gameplay.ts *)

Module Web.

(** [GameplayTypes = z.enum(['VAL', 'CSG', 'TF2', 'APE', 'COD', 'R6S'])] *)
Inductive GameplayType : Type := VAL | CSG | TF2 | APE | COD | R6S.

Definition GameplayType_eqb (a b : GameplayType) : bool :=
  match a, b with
  | VAL, VAL | CSG, CSG | TF2, TF2 | APE, APE | COD, COD | R6S, R6S => true
  | _, _ => false
  end.

(** Modelled from the spec: the role enumeration of the auth collaborator
    (its declaration is not among the sources): ordinary, moderator,
    admin. *)
Inductive Role : Type := Ordinary | Moderator | Admin.

(** The permission levels passed to [hasPerms]; the router uses
    [Perms.isOwner] and [Perms.roleMod]. *)
Inductive Perms : Type := isOwner | roleMod | roleAdmin.

(** The argument object of [hasPerms]. *)
Record PermsArgs : Type := mkPermsArgs {
  pa_userId : string;
  pa_userRole : Role;
  pa_itemOwnerId : string;
  pa_requiredPerms : Perms;
  pa_blacklisted : bool
}.

(** *** Rows of the relational store *)

Record Gameplay : Type := mkGameplay {
  id : string;
  userId : string;
  youtubeUrl : string;
  gameplayType : GameplayType;
  isAnalyzed : bool;
  videoFormat : option Z;
  footageType : option GameplayType
}.


Record GameplayVote : Type := mkVote {
  voteId : string;
  vote_gameplayId : string;
  vote_userId : string;
  isGame : bool;
  actualGame : GameplayType
}.

Record Segment : Type := mkSegment {
  segmentId : string;
  seg_gameplayId : string
}.

Record User : Type := mkUser {
  user_id : string;
  name : option string;
  role : Role;
  blacklisted : bool
}.

Record Store : Type := mkStore {
  gameplay : list Gameplay;
  gameplayVotes : list GameplayVote;
  clips : list Segment;
  users : list User
}.

Record State : Type := mkState {
  store : Store;
  trace : list Effect
}.

(** *** Exceptions *)

Inductive TRPCCode : Type :=
| UNAUTHORIZED | FORBIDDEN | NOT_FOUND | BAD_REQUEST | INTERNAL_SERVER_ERROR.

(** [new TRPCError({code, message, cause})], or an error raised by a
    library (the store client, ytdl). *)
#[warnings="-register-all"]
Inductive Exn : Type :=
| TRPCError (code : TRPCCode) (message : option string) (cause : option Exn)
| LibError (msg : string).

Definition P (A : Type) : Type := M State Exn A.

Definition perform (e : Effect) : P unit :=
  modify (fun s => mkState (store s) (trace s ++ [e])%list).

Definition setGameplay (f : list Gameplay -> list Gameplay) : P unit :=
  modify (fun s =>
    let d := store s in
    mkState (mkStore (f (gameplay d)) (gameplayVotes d) (clips d) (users d)) (trace s)).

Definition setVotes (f : list GameplayVote -> list GameplayVote) : P unit :=
  modify (fun s =>
    let d := store s in
    mkState (mkStore (gameplay d) (f (gameplayVotes d)) (clips d) (users d)) (trace s)).

(** *** The outside world of one request *)

(** One entry of [details.formats]. *)
Record videoFormatInfo : Type := mkFormat { itag : Z }.

Record Env : Type := mkEnv {
  cuid : string;                                      (* the value of [cuid()] *)
  rowId : string;                                     (* the id the store gives a new row *)
  getInfo : string -> option (list videoFormatInfo);  (* [None] when it rejects *)
  Math_random : nat -> Q;                             (* the n-th draw of the request *)
  gameplayTypeDefault : option GameplayType           (* the table's default category *)
}.

Definition ytdl_getInfo (env : Env) (url : string) : P (list videoFormatInfo) :=
  (perform (GetInfo url) ;;;
   match getInfo env url with
   | Some formats => ret formats
   | None => throw (LibError "getInfo")
   end)%handler.

(** *** Session and the [isAuthed] middleware (trpc.ts) *)

Record SessionUser : Type := mkSessionUser {
  su_id : string;
  su_role : Role;
  su_blacklisted : bool
}.

Record Session : Type := mkSession { user : option SessionUser }.

Record Context : Type := mkContext { session : option Session }.

(** [next] receives the context with [session.user] known to be present. *)
Definition isAuthed {A} (ctx : Context) (next : SessionUser -> P A) : P A :=
  match session ctx with
  | None => throw (TRPCError UNAUTHORIZED None None)
  | Some sess =>
      match user sess with
      | None => throw (TRPCError UNAUTHORIZED None None)
      | Some u =>
          if su_blacklisted u then throw (TRPCError FORBIDDEN None None)
          else next u
      end
  end.

(** [protectedProcedure = t.procedure.use(isAuthed)] *)
Definition protectedProcedure {A} (handler : SessionUser -> P A) (ctx : Context) : P A :=
  isAuthed ctx handler.

(** *** Store client *)

Definition gameplay_findUnique (p : Gameplay -> bool) : P (option Gameplay) :=
  gets (fun s => find p (gameplay (store s))).

Definition gameplay_findUniqueOrThrow (p : Gameplay -> bool) : P Gameplay :=
  (r <- gameplay_findUnique p ;;
   match r with
   | Some g => ret g
   | None => throw (LibError "NotFoundError")
   end)%handler.

Definition gameplay_count (where_ : Gameplay -> bool) : P Z :=
  gets (fun s => Z.of_nat (length (filter where_ (gameplay (store s))))).

(** Sorting for [orderBy]. *)
Fixpoint insert_by {A} (le : A -> A -> bool) (x : A) (l : list A) : list A :=
  match l with
  | [] => [x]
  | y :: r => if le x y then x :: y :: r else y :: insert_by le x r
  end.

Definition sort_by {A} (le : A -> A -> bool) (l : list A) : list A :=
  fold_right (insert_by le) [] l.

Inductive OrderDir : Type := asc | desc.

Definition order_le (key : Gameplay -> string) (dir : OrderDir) (a b : Gameplay) : bool :=
  match dir with
  | asc => String.leb (key a) (key b)
  | desc => String.leb (key b) (key a)
  end.

(** [findMany({where, orderBy, skip, take})]: the rows the filter keeps,
    ordered, then [skip] rows dropped and at most [take] rows returned.
    The client rejects a negative [skip]. *)
Definition gameplay_findMany
    (where_ : Store -> Gameplay -> bool)
    (orderBy : option ((Gameplay -> string) * OrderDir))
    (skip take : Z) : P (list Gameplay) :=
  (if skip <? 0 then throw (LibError "Invalid value for skip argument")
   else
     gets (fun s =>
       let rows := filter (where_ (store s)) (gameplay (store s)) in
       let ordered :=
         match orderBy with
         | Some (key, dir) => sort_by (order_le key dir) rows
         | None => rows
         end in
       firstn (Z.to_nat take) (skipn (Z.to_nat skip) ordered)))%handler.

(** The [data] of [gameplay.create] as the router builds it. *)
Record GameplayCreateData : Type := mkCreateData {
  data_userId : string;
  data_youtubeUrl : string;
  data_videoFormat : option Z;
  data_footageType : GameplayType
}.

(** Modelled from the spec: the column defaults and the uniqueness
    constraint of the gameplay table, whose schema is not among the
    sources.  Every key of the data is stored under its own name, so the
    category, which the router passes as [footageType], is not the row's
    [gameplayType].  The keys the data leaves out take the table's
    defaults: a store-assigned id, [isAnalyzed = false], and for
    [gameplayType] the default the environment names; without such a
    default the row is refused, as is a second row with the same URL. *)
Definition gameplay_create (env : Env) (data : GameplayCreateData) : P Gameplay :=
  (existing <- gameplay_findUnique (fun g => youtubeUrl g =? data_youtubeUrl data)%string ;;
   if isSome existing then throw (LibError "Unique constraint failed")
   else
     match gameplayTypeDefault env with
     | None => throw (LibError "Argument gameplayType is missing")
     | Some defaultType =>
         let row := {| id := rowId env;
                       userId := data_userId data;
                       youtubeUrl := data_youtubeUrl data;
                       gameplayType := defaultType;
                       isAnalyzed := false;
                       videoFormat := data_videoFormat data;
                       footageType := Some (data_footageType data) |} in
         setGameplay (fun l => (l ++ [row])%list) ;;;
         ret row
     end)%handler.

(** [gameplay.update({where: {id}, data})] resolves to the updated row. *)
Definition gameplay_update (gid : string) (upd : Gameplay -> Gameplay) : P Gameplay :=
  (r <- gameplay_findUnique (fun g => id g =? gid)%string ;;
   match r with
   | None => throw (LibError "RecordNotFound")
   | Some g =>
       setGameplay (update_first (fun g => id g =? gid)%string upd) ;;;
       ret (upd g)
   end)%handler.

(** Modelled from the spec: [gameplay.delete({where: {id}})] removes the
    addressed row and nothing else, no cascade to clips or votes being
    assumed of the store (the schema is not among the sources). *)
Definition gameplay_delete (gid : string) : P Gameplay :=
  (r <- gameplay_findUnique (fun g => id g =? gid)%string ;;
   match r with
   | None => throw (LibError "RecordNotFound")
   | Some g =>
       setGameplay (remove_first (fun g => id g =? gid)%string) ;;;
       ret g
   end)%handler.

(** Modelled from the spec: [gameplayVotes.create] inserts unconditionally,
    the vote table carrying no uniqueness constraint on (user, gameplay)
    (the schema is not among the sources). *)
Definition gameplayVotes_create (env : Env) (gid : string) (g : bool)
    (actual : GameplayType) (uid : string) : P GameplayVote :=
  (let row := {| voteId := rowId env;
                 vote_gameplayId := gid;
                 vote_userId := uid;
                 isGame := g;
                 actualGame := actual |} in
   setVotes (fun l => (l ++ [row])%list) ;;;
   ret row)%handler.

(** *** The gameplay router *)

Section Router.

(** [hasPerms] of [@server/utils/hasPerms] is not among the sources: the
    router is embedded over an arbitrary permission evaluator. *)
Variable hasPerms : PermsArgs -> bool.

(** **** getMany *)

Record DashRow : Type := mkDashRow {
  dash_gameplay : Gameplay;
  dash_user : option User;          (* include: { user: true } *)
  gameplayCount : Z                 (* Object.assign(..., { gameplayCount }) *)
}.

Definition include_user (count : Z) (rows : list Gameplay) : P (list DashRow) :=
  gets (fun s =>
    map (fun g =>
           mkDashRow g
             (find (fun u => user_id u =? userId g)%string (users (store s)))
             count)
        rows).

Definition type_filter (filterGames : option GameplayType) (g : Gameplay) : bool :=
  match filterGames with
  | None => true
  | Some t => GameplayType_eqb (gameplayType g) t
  end.

Definition not_found_inputs : Exn :=
  TRPCError NOT_FOUND (Some "No footage with the inputs provided could be found.") None.

(** [page] ranges over the integers. *)
Definition getMany (page : Z) (filterGames : option GameplayType) (_ : SessionUser)
  : P (list DashRow) :=
  (let takeValue := 10 in
   let skipValue := page * 10 - 10 in
   match filterGames with
   | None =>
       gameplayCount <- gameplay_count (fun _ => true) ;;
       tryCatch
         (gameplays <- gameplay_findMany (fun _ _ => true) None skipValue takeValue ;;
          include_user gameplayCount gameplays)
         (fun _ => throw not_found_inputs)
   | Some t =>
       tryCatch
         (gameplayCount <- gameplay_count (type_filter (Some t)) ;;
          gameplays <- gameplay_findMany (fun _ => type_filter (Some t)) None
                         skipValue takeValue ;;
          include_user gameplayCount gameplays)
         (fun _ => throw not_found_inputs)
   end)%handler.

(** **** create *)

Record CreateInput : Type := mkCreateInput {
  in_youtubeUrl : string;
  in_gameplayType : GameplayType
}.

Definition find_itag (n : Z) (formats : list videoFormatInfo) : option videoFormatInfo :=
  find (fun format => itag format =? n) formats.

Definition create (env : Env) (input : CreateInput) (u : SessionUser) : P Gameplay :=
  (let url := in_youtubeUrl input in
   existingGameplay <- gameplay_findUnique (fun g => youtubeUrl g =? url)%string ;;
   if isSome existingGameplay then
     throw (TRPCError BAD_REQUEST
              (Some "This youtube url has already been submitted.") None)
   else
     formats <- ytdl_getInfo env url ;;
     let defaultFormat :=
       match find_itag 299 formats with
       | Some f => Some f
       | None => find_itag 298 formats
       end in
     let lowFormat := if isSome (find_itag 136 formats) then Some 136 else None in
     let footageId := cuid env in
     perform (Download url (footageId ++ ".mp4")) ;;;
     perform (ParseClips footageId (footageId ++ ".mp4")) ;;;
     if negb (isSome defaultFormat) && negb (isSome lowFormat) then
       throw (TRPCError BAD_REQUEST
                (Some "URL does not provide an acceptable video format.") None)
     else
       gameplay_create env
         {| data_userId := su_id u;
            data_youtubeUrl := url;
            data_videoFormat :=
              match defaultFormat with
              | Some f => Some (itag f)
              | None => lowFormat
              end;
            data_footageType := in_gameplayType input |})%handler.

(** **** update *)

Record UpdateInput : Type := mkUpdateInput {
  up_gameplayId : string;
  up_gameplayType : GameplayType;
  up_isAnalyzed : bool
}.

Definition apply_update (input : UpdateInput) (g : Gameplay) : Gameplay :=
  {| id := id g;
     userId := userId g;
     youtubeUrl := youtubeUrl g;
     gameplayType := up_gameplayType input;
     isAnalyzed := up_isAnalyzed input;
     videoFormat := videoFormat g;
     footageType := footageType g |}.

Definition server_error (error : Exn) : Exn :=
  TRPCError INTERNAL_SERVER_ERROR (Some "An error occurred in the server") (Some error).

(** The UNAUTHORIZED error is thrown inside the [try], so the [catch]
    below receives it like any other error. *)
Definition update (input : UpdateInput) (u : SessionUser) : P Gameplay :=
  (tryCatch
     (gameplay <- gameplay_findUniqueOrThrow
                    (fun g => id g =? up_gameplayId input)%string ;;
      let requiredPerms :=
        if Bool.eqb (isAnalyzed gameplay) (up_isAnalyzed input) then isOwner else roleMod in
      if negb (hasPerms {| pa_userId := su_id u;
                           pa_userRole := su_role u;
                           pa_itemOwnerId := userId gameplay;
                           pa_requiredPerms := requiredPerms;
                           pa_blacklisted := su_blacklisted u |})
      then throw (TRPCError UNAUTHORIZED None None)
      else gameplay_update (up_gameplayId input) (apply_update input))
     (fun error => throw (server_error error)))%handler.

(** **** delete *)

Definition delete (gameplayId : string) (u : SessionUser) : P unit :=
  (tryCatch
     (gameplay <- gameplay_findUniqueOrThrow (fun g => id g =? gameplayId)%string ;;
      if negb (hasPerms {| pa_userId := su_id u;
                           pa_userRole := su_role u;
                           pa_itemOwnerId := userId gameplay;
                           pa_requiredPerms := isOwner;
                           pa_blacklisted := su_blacklisted u |})
      then throw (TRPCError UNAUTHORIZED None None)
      else
        gameplay_delete gameplayId ;;;
        ret tt)
     (fun error => throw (server_error error)))%handler.

(** **** getReviewItems *)

(** The product of two numbers is the double nearest to the exact product,
    ties going to the even significand (IEEE 754 binary64: 53 significant
    bits, least exponent -1074).  Numbers are carried as the rationals
    they denote; products of 2^1024 and beyond, which overflow, are out of
    the range of this embedding. *)

(** [a / b] rounded to the nearest integer, ties to even, for [0 < b]. *)
Definition round_half_even (a b : Z) : Z :=
  let fl := a / b in
  match 2 * (a mod b) ?= b with
  | Lt => fl
  | Gt => fl + 1
  | Eq => if Z.even fl then fl else fl + 1
  end.

(** [2^k <= p / q], for positive [p] and [q]. *)
Definition reaches_pow2 (p q k : Z) : bool :=
  if 0 <=? k then q * 2 ^ k <=? p else q <=? p * 2 ^ (- k).

(** The binary exponent of [p / q]: the [k] with [2^k <= p / q < 2^(k+1)]. *)
Definition binary_exponent (p q : Z) : Z :=
  let k0 := Z.log2 p - Z.log2 q in
  if reaches_pow2 p q k0 then k0 else k0 - 1.

(** The double nearest to [p / q], for positive [p] and [q]. *)
Definition round_double_pos (p q : Z) : Q :=
  let e := Z.max (binary_exponent p q - 52) (- 1074) in
  if 0 <=? e then inject_Z (round_half_even p (q * 2 ^ e) * 2 ^ e)
  else Qmake (round_half_even (p * 2 ^ (- e)) q) (Z.to_pos (2 ^ (- e))).

Definition round_double (x : Q) : Q :=
  match Qnum x with
  | Z0 => 0%Q
  | Zpos p => round_double_pos (Zpos p) (Zpos (Qden x))
  | Zneg p => Qopp (round_double_pos (Zpos p) (Zpos (Qden x)))
  end.

(** [Math.floor(r * n)] *)
Definition floor_scaled (r : Q) (n : Z) : Z :=
  Qfloor (round_double (r * inject_Z n)).

(** [values[Math.floor(Math.random() * values.length)]]; an index outside
    the array reads [undefined]. *)
Definition randomPick {A} (values : list A) (r : Q) : option A :=
  let index := floor_scaled r (Z.of_nat (length values)) in
  if index <? 0 then None else nth_error values (Z.to_nat index).

Definition column (key : string) : option (Gameplay -> string) :=
  if (key =? "userId")%string then Some userId
  else if (key =? "id")%string then Some id
  else if (key =? "youtubeUrl")%string then Some youtubeUrl
  else None.

Definition direction (d : string) : option OrderDir :=
  if (d =? "desc")%string then Some desc
  else if (d =? "asc")%string then Some asc
  else None.

(** [gameplayVotes: { none: { userId } }] *)
Definition no_vote_by (uid : string) (d : Store) (g : Gameplay) : bool :=
  negb (existsb (fun v => (vote_gameplayId v =? id g)%string
                          && (vote_userId v =? uid)%string)
                (gameplayVotes d)).

Record ReviewItem : Type := mkReviewItem {
  ri_gameplay : Gameplay;
  ri_user : option User;                 (* include: { user: true } *)
  ri_gameplayVotes : list GameplayVote   (* include: { gameplayVotes: true } *)
}.

Definition include_user_votes (g : Gameplay) : P ReviewItem :=
  gets (fun s =>
    mkReviewItem g
      (find (fun u => user_id u =? userId g)%string (users (store s)))
      (filter (fun v => vote_gameplayId v =? id g)%string (gameplayVotes (store s)))).

Definition getReviewItems (env : Env) (u : SessionUser) : P ReviewItem :=
  (itemCount <- gameplay_count (fun _ => true) ;;
   let tenDocs := fun r => floor_scaled r (itemCount - 1 + 1) in
   let orderBy := randomPick ["userId"; "id"; "youtubeUrl"] (Math_random env 0) in
   let orderDir := randomPick ["desc"; "asc"] (Math_random env 1) in
   let order :=
     match orderBy, orderDir with
     | Some k, Some d =>
         match column k, direction d with
         | Some key, Some dir => Some (key, dir)
         | _, _ => None
         end
     | _, _ => None
     end in
   reviewItem <- gameplay_findMany (no_vote_by (su_id u)) order
                   (tenDocs (Math_random env 2)) 1 ;;
   match reviewItem with
   | [] => throw (TRPCError NOT_FOUND None None)
   | g :: _ => include_user_votes g
   end)%handler.

(** **** review *)

Record ReviewInput : Type := mkReviewInput {
  rv_gameplayId : string;
  rv_isGame : bool;
  rv_actualGame : GameplayType
}.

(** The object [gameplayVotes.create] resolves to is never falsy, so the
    NOT_FOUND branch that follows it in the source cannot be taken. *)
Definition review (env : Env) (input : ReviewInput) (u : SessionUser) : P string :=
  (if (su_id u =? EmptyString)%string then ret "No user"
   else
     _footageVote <- gameplayVotes_create env (rv_gameplayId input) (rv_isGame input)
                       (rv_actualGame input) (su_id u) ;;
     ret "Updated the gameplay document successfully.")%handler.

(** **** get *)

Definition not_found_gameplay : Exn :=
  TRPCError NOT_FOUND (Some "Could not find that requested gameplay") None.

Definition get (gameplayId : string) (u : SessionUser) : P Gameplay :=
  (gameplay <- gameplay_findUnique (fun g => id g =? gameplayId)%string ;;
   match gameplay with
   | None => throw not_found_gameplay
   | Some g =>
       if negb (hasPerms {| pa_userId := su_id u;
                            pa_userRole := su_role u;
                            pa_itemOwnerId := userId g;
                            pa_requiredPerms := isOwner;
                            pa_blacklisted := su_blacklisted u |})
       then throw not_found_gameplay
       else ret g
   end)%handler.

(** **** getClips *)

(** [include: { clips: true }] *)
Definition clips_of (g : Gameplay) : P (list Segment) :=
  gets (fun s => filter (fun c => seg_gameplayId c =? id g)%string (clips (store s))).

Definition getClips (gameplayId : string) (u : SessionUser) : P (list Segment) :=
  (gameplay <- gameplay_findUnique (fun g => id g =? gameplayId)%string ;;
   match gameplay with
   | None => throw not_found_gameplay
   | Some g =>
       gameplay_clips <- clips_of g ;;
       if negb (hasPerms {| pa_userId := su_id u;
                            pa_userRole := su_role u;
                            pa_itemOwnerId := userId g;
                            pa_requiredPerms := roleMod;
                            pa_blacklisted := su_blacklisted u |})
       then throw (TRPCError UNAUTHORIZED None None)
       else ret gameplay_clips
   end)%handler.

End Router.

(** *** The permission evaluator *)

Definition roleRank (r : Role) : nat :=
  match r with
  | Ordinary => 0
  | Moderator => 1
  | Admin => 2
  end.

(** Modelled from the spec: the permission evaluator [hasPerms] of
    [@server/utils/hasPerms], which is not among the sources.  A blacklisted
    caller is denied at every level; [isOwner] allows the owner of the item
    and every caller with an elevated role; [roleMod] allows moderators and
    admins; [roleAdmin] allows admins. *)
Definition hasPerms (a : PermsArgs) : bool :=
  if pa_blacklisted a then false
  else
    match pa_requiredPerms a with
    | isOwner =>
        (pa_userId a =? pa_itemOwnerId a)%string || (1 <=? roleRank (pa_userRole a))%nat
    | roleMod => (1 <=? roleRank (pa_userRole a))%nat
    | roleAdmin => (2 <=? roleRank (pa_userRole a))%nat
    end.

End Web.

(** * Sample requests and stores *)

Module Samples.

Definition urlA : string := "https://youtu.be/a".
Definition urlB : string := "https://youtu.be/b".

(** The document store: one footage document with one clip. *)
Definition footageA : Backend.Footage :=
  Backend.mkFootage "f1" "42" "ann" urlA false false.

Definition clipA : Backend.Clip := Backend.mkClip "c1" "f1".

Definition backend0 : Backend.State :=
  Backend.mkState (Backend.mkStore [footageA] [clipA]) [].

Definition backendEnv : Backend.Env :=
  Backend.mkEnv "f2" (fun _ => Some "details") true (Some 0).

(** The relational store: one gameplay row owned by [ann], with one clip
    and one vote cast by [mia]. *)
Definition gameplayA : Web.Gameplay :=
  Web.mkGameplay "g1" "u1" urlA Web.VAL false (Some 299) None.

Definition voteA : Web.GameplayVote := Web.mkVote "v1" "g1" "u2" true Web.VAL.

Definition segmentA : Web.Segment := Web.mkSegment "s1" "g1".

Definition ann : Web.SessionUser := Web.mkSessionUser "u1" Web.Ordinary false.
Definition mia : Web.SessionUser := Web.mkSessionUser "u2" Web.Moderator false.
Definition bob : Web.SessionUser := Web.mkSessionUser "u3" Web.Ordinary false.

Definition web0 : Web.State :=
  Web.mkState
    (Web.mkStore [gameplayA] [voteA] [segmentA]
       [Web.mkUser "u1" (Some "ann") Web.Ordinary false;
        Web.mkUser "u2" (Some "mia") Web.Moderator false;
        Web.mkUser "u3" (Some "bob") Web.Ordinary false])
    [].

Definition webEnv (formats : list Web.videoFormatInfo) : Web.Env :=
  Web.mkEnv "ck1" "g2" (fun _ => Some formats) (fun _ => 0%Q) (Some Web.CSG).

(** A table of 25 rows, named by the letters A to Y. *)
Definition letter (n : nat) : string :=
  String (Ascii.ascii_of_nat (65 + n)) EmptyString.

Definition row_of (n : nat) : Web.Gameplay :=
  Web.mkGameplay (letter n) "u1" (urlA ++ letter n) Web.CSG false None None.

Definition web25 : Web.State :=
  Web.mkState (Web.mkStore (map row_of (seq 0 25)) [] [] []) [].

(** Environments in which the resolver rejects, the write never finishes,
    and the child never closes. *)
Definition rejectingEnv : Backend.Env :=
  Backend.mkEnv "f2" (fun _ => None) true (Some 0).

Definition stalledEnv : Backend.Env :=
  Backend.mkEnv "f2" (fun _ => Some "details") false (Some 0).

Definition runningEnv : Backend.Env :=
  Backend.mkEnv "f3" (fun _ => Some "details") true None.

Definition inputB : Backend.CreateInput := Backend.mkCreateInput "7" "bob" urlB.

Definition webRejectingEnv : Web.Env :=
  Web.mkEnv "ck1" "g2" (fun _ => None) (fun _ => 0%Q) (Some Web.CSG).

(** Two rows, the first of which [mia] has voted on, and draws of one half. *)
Definition gameplayB : Web.Gameplay :=
  Web.mkGameplay "g3" "u3" urlB Web.CSG false (Some 136) None.

Definition web2 : Web.State :=
  Web.mkState (Web.mkStore [gameplayA; gameplayB] [voteA] [segmentA] []) [].

Definition halfEnv : Web.Env :=
  Web.mkEnv "ck1" "g2" (fun _ => Some []) (fun _ => (1 # 2)%Q) (Some Web.CSG).

(** Seven rows, the first three of which [mia] has voted on, and a draw
    whose product with 7 rounds up to 4. *)
Definition web7 : Web.State :=
  Web.mkState
    (Web.mkStore (map row_of (seq 0 7))
       [Web.mkVote "v1" (letter 0) "u2" true Web.CSG;
        Web.mkVote "v2" (letter 1) "u2" true Web.CSG;
        Web.mkVote "v3" (letter 2) "u2" false Web.VAL]
       [] [])
    [].

Definition roundingEnv : Web.Env :=
  Web.mkEnv "ck1" "g2" (fun _ => Some [])
    (fun _ => (2573485501354569 # 4503599627370496)%Q) (Some Web.CSG).

End Samples.

(** * The errors the properties name *)

Definition duplicate_http (url : string) : Backend.Exn :=
  Backend.Http (Backend.createHttpError 400
                  ("URL " ++ url ++ " has already been submitted.")).

Definition duplicate_rpc : Web.Exn :=
  Web.TRPCError Web.BAD_REQUEST
    (Some "This youtube url has already been submitted.") None.

Definition unacceptable_rpc : Web.Exn :=
  Web.TRPCError Web.BAD_REQUEST
    (Some "URL does not provide an acceptable video format.") None.

Definition not_found_http (msg : string) : Backend.Exn :=
  Backend.Http (Backend.createHttpError 404 msg).

Definition not_found_rpc : Web.Exn := Web.TRPCError Web.NOT_FOUND None None.

Definition forbidden_rpc : Web.Exn := Web.TRPCError Web.FORBIDDEN None None.

Definition unauthorized_rpc : Web.Exn := Web.TRPCError Web.UNAUTHORIZED None None.

(** The encoding list offers none of the identifiers the router looks for. *)
Definition no_usable_format (formats : list Web.videoFormatInfo) : Prop :=
  forall f, In f formats ->
    Web.itag f <> 299 /\ Web.itag f <> 298 /\ Web.itag f <> 136.

(** The argument [update] passes to the permission evaluator. *)
Definition update_args (input : Web.UpdateInput) (u : Web.SessionUser) (g : Web.Gameplay)
  : Web.PermsArgs :=
  {| Web.pa_userId := Web.su_id u;
     Web.pa_userRole := Web.su_role u;
     Web.pa_itemOwnerId := Web.userId g;
     Web.pa_requiredPerms :=
       if Bool.eqb (Web.isAnalyzed g) (Web.up_isAnalyzed input)
       then Web.isOwner else Web.roleMod;
     Web.pa_blacklisted := Web.su_blacklisted u |}.

(** The request [update] puts to the evaluator when the flag changes: the
    caller against the owner of the row, at the moderator level. *)
Definition mod_args (u : Web.SessionUser) (g : Web.Gameplay) : Web.PermsArgs :=
  {| Web.pa_userId := Web.su_id u;
     Web.pa_userRole := Web.su_role u;
     Web.pa_itemOwnerId := Web.userId g;
     Web.pa_requiredPerms := Web.roleMod;
     Web.pa_blacklisted := Web.su_blacklisted u |}.

(** The number of votes [uid] has cast on [gid]. *)
Definition votes_of (uid gid : string) (votes : list Web.GameplayVote) : nat :=
  length (filter (fun v => (Web.vote_userId v =? uid)%string
                           && (Web.vote_gameplayId v =? gid)%string) votes).

(** The context of a signed-in caller. *)
Definition signed_in (u : Web.SessionUser) : Web.Context :=
  Web.mkContext (Some (Web.mkSession (Some u))).

(** [Math.random()] lies in the interval from 0 (included) to 1 (excluded). *)
Definition unit_draws (env : Web.Env) : Prop :=
  forall n, (0 <= Web.Math_random env n)%Q /\ (Web.Math_random env n < 1)%Q.

(** The request [get] and [delete] put to the evaluator: the caller against
    the owner of the row, at the owner level. *)
Definition owner_args (u : Web.SessionUser) (g : Web.Gameplay) : Web.PermsArgs :=
  {| Web.pa_userId := Web.su_id u;
     Web.pa_userRole := Web.su_role u;
     Web.pa_itemOwnerId := Web.userId g;
     Web.pa_requiredPerms := Web.isOwner;
     Web.pa_blacklisted := Web.su_blacklisted u |}.

(** The rows the caller [uid] has not voted on, in table order. *)
Definition eligible (uid : string) (st : Web.State) : list Web.Gameplay :=
  filter (Web.no_vote_by uid (Web.store st)) (Web.gameplay (Web.store st)).

(** The encoding list offers the identifier [n]. *)
Definition offers (n : Z) (formats : list Web.videoFormatInfo) : Prop :=
  exists f, In f formats /\ Web.itag f = n.


Definition backend_urls (st : Backend.State) : list string :=
  map Backend.youtubeUrl (Backend.footageDocs (Backend.store st)).

Definition backend_uuids (st : Backend.State) : list string :=
  map Backend.uuid (Backend.footageDocs (Backend.store st)).

Definition web_urls (st : Web.State) : list string :=
  map Web.youtubeUrl (Web.gameplay (Web.store st)).

Definition web_ids (st : Web.State) : list string :=
  map Web.id (Web.gameplay (Web.store st)).

(** No stored footage document carries [url]. *)
Definition fresh_url (st : Backend.State) (url : string) : Prop :=
  forall f, In f (Backend.footageDocs (Backend.store st)) -> Backend.youtubeUrl f <> url.

(** No stored gameplay row carries [url]. *)
Definition fresh_web_url (st : Web.State) (url : string) : Prop :=
  forall g, In g (Web.gameplay (Web.store st)) -> Web.youtubeUrl g <> url.

Definition update_missing_http : Backend.Exn :=
  Backend.Http (Backend.createHttpError 418 "No document with that UUID was found.").

Definition footage_missing_http (uuid : string) : Backend.Exn :=
  not_found_http ("Footage with uuid " ++ dquote ++ uuid ++ dquote ++ " not found.").

Definition footage_by_uuid_missing_http : Backend.Exn :=
  not_found_http "No footage document with the UUID provided could be found.".

(** The identifier [create] stores as [videoFormat]:
    [defaultFormat ? defaultFormat.itag : lowFormat]. *)
Definition selected_itag (formats : list Web.videoFormatInfo) : option Z :=
  match Web.find_itag 299 formats with
  | Some f => Some (Web.itag f)
  | None =>
      match Web.find_itag 298 formats with
      | Some f => Some (Web.itag f)
      | None => if isSome (Web.find_itag 136 formats) then Some 136 else None
      end
  end.

(** The row [create] stores for [input] submitted by [u] with format [v],
    in a table whose default category is [d]. *)
Definition created_row (env : Web.Env) (input : Web.CreateInput) (u : Web.SessionUser)
    (v : option Z) (d : Web.GameplayType) : Web.Gameplay :=
  Web.mkGameplay (Web.rowId env) (Web.su_id u) (Web.in_youtubeUrl input)
    d false v (Some (Web.in_gameplayType input)).

(** The effects of an ingestion on the RPC layer, in order. *)
Definition ingestion_effects (env : Web.Env) (url : string) : list Effect :=
  [GetInfo url; Download url (Web.cuid env ++ ".mp4");
   ParseClips (Web.cuid env) (Web.cuid env ++ ".mp4")].

(** The rows [getMany] pages through: the table, or its rows of one
    category. *)
Definition listed (filterGames : option Web.GameplayType) (st : Web.State)
  : list Web.Gameplay :=
  filter (Web.type_filter filterGames) (Web.gameplay (Web.store st)).

(** The number of rows [getReviewItems] skips: [tenDocs()] for the third
    draw of the request. *)
Definition review_skip (env : Web.Env) (st : Web.State) : nat :=
  Z.to_nat (Web.floor_scaled (Web.Math_random env 2)
              (Z.of_nat (length (Web.gameplay (Web.store st))))).



(** * Properties *)

(** ** Lists *)

Section ListFacts.
Variable A : Type.
Implicit Types (p : A -> bool) (l : list A).

Lemma find_present p l x :
  In x l -> p x = true -> exists y, find p l = Some y.
Proof.
  induction l as [|a r IH]; simpl; intros Hin Hp; [contradiction|].
  destruct (p a) eqn:Ea; [now exists a|].
  destruct Hin as [->|Hin]; [congruence | now apply IH].
Qed.

Lemma filter_none p l :
  (forall x, In x l -> p x = false) -> filter p l = [].
Proof.
  induction l as [|a r IH]; simpl; intros Hall; [reflexivity|].
  rewrite (Hall a (or_introl eq_refl)). apply IH. intros x Hx. apply Hall. now right.
Qed.

Lemma find_absent p l :
  (forall x, In x l -> p x = false) -> find p l = None.
Proof.
  induction l as [|a r IH]; simpl; intros Hall; [reflexivity|].
  rewrite (Hall a (or_introl eq_refl)). apply IH. intros x Hx. apply Hall. now right.
Qed.

Lemma In_firstn n l x : In x (firstn n l) -> In x l.
Proof.
  intros Hin. rewrite <- (firstn_skipn n l). apply in_or_app. now left.
Qed.

Lemma In_skipn n l x : In x (skipn n l) -> In x l.
Proof.
  intros Hin. rewrite <- (firstn_skipn n l). apply in_or_app. now right.
Qed.

Lemma In_insert_by (le : A -> A -> bool) a l x :
  In x (Web.insert_by le a l) -> x = a \/ In x l.
Proof.
  induction l as [|b r IH]; simpl.
  - intros [<-|[]]. now left.
  - destruct (le a b); simpl.
    + intros [<-|Hin]; [now left | now right].
    + intros [<-|Hin]; [right; now left|].
      destruct (IH Hin) as [->|Hr]; [now left | right; now right].
Qed.

Lemma In_sort_by (le : A -> A -> bool) l x :
  In x (Web.sort_by le l) -> In x l.
Proof.
  unfold Web.sort_by. induction l as [|a r IH]; simpl; [trivial|].
  intros Hin. apply In_insert_by in Hin. destruct Hin as [->|Hin]; [now left|].
  right. now apply IH.
Qed.

Lemma find_update_first p (f : A -> A) l x :
  find p l = Some x -> p (f x) = true ->
  find p (update_first p f l) = Some (f x).
Proof.
  induction l as [|a r IH]; simpl; [discriminate|].
  destruct (p a) eqn:Ea; intros Hf Hp.
  - injection Hf as ->. simpl. now rewrite Hp.
  - simpl. rewrite Ea. now apply IH.
Qed.

Lemma In_remove_first p l x : In x (remove_first p l) -> In x l.
Proof.
  induction l as [|a r IH]; simpl; [trivial|].
  destruct (p a); simpl; [now right|].
  intros [->|Hin]; [now left | right; now apply IH].
Qed.

End ListFacts.

(** ** Duplicate submissions *)

(** C1. When the submitted URL is already in the record store, both
    ingestion operations throw their duplicate-submission error and leave
    the state exactly as it was: the store is unchanged and the effect trace
    has gained no entry, so no resolver call, download or clip extraction
    took place. *)
Theorem duplicate_url_aborts_before_download :
  (forall env input st f,
      In f (Backend.footageDocs (Backend.store st)) ->
      Backend.youtubeUrl f = Backend.in_url input ->
      Backend.createFootage env input st
      = (Throw (duplicate_http (Backend.in_url input)), st))
  /\
  (forall env input u st g,
      In g (Web.gameplay (Web.store st)) ->
      Web.youtubeUrl g = Web.in_youtubeUrl input ->
      Web.create env input u st = (Throw duplicate_rpc, st)).
Proof.
  split.
  - intros env input st f Hin Hurl.
    destruct (find_present (fun f => Backend.youtubeUrl f =? Backend.in_url input)%string
                _ _ Hin) as [y Hy].
    { now apply String.eqb_eq. }
    unfold Backend.createFootage, Backend.Footage_findOne, bind, gets.
    now rewrite Hy.
  - intros env input u st g Hin Hurl.
    destruct (find_present (fun g => Web.youtubeUrl g =? Web.in_youtubeUrl input)%string
                _ _ Hin) as [y Hy].
    { now apply String.eqb_eq. }
    unfold Web.create, Web.gameplay_findUnique, bind, gets.
    now rewrite Hy.
Qed.

Lemma duplicate_url_aborts_before_download_witness :
  Backend.createFootage Samples.backendEnv
    (Backend.mkCreateInput "42" "ann" Samples.urlA) Samples.backend0
  = (Throw (duplicate_http Samples.urlA), Samples.backend0)
  /\
  Web.create (Samples.webEnv [Web.mkFormat 299])
    (Web.mkCreateInput Samples.urlA Web.CSG) Samples.bob Samples.web0
  = (Throw duplicate_rpc, Samples.web0).
Proof.
  split.
  - apply (proj1 duplicate_url_aborts_before_download) with (f := Samples.footageA).
    + simpl. now left.
    + reflexivity.
  - apply (proj2 duplicate_url_aborts_before_download) with (g := Samples.gameplayA).
    + simpl. now left.
    + reflexivity.
Defined.

(** ** Unusable encodings *)

Lemma find_itag_unusable formats n :
  no_usable_format formats -> n = 299 \/ n = 298 \/ n = 136 ->
  Web.find_itag n formats = None.
Proof.
  intros Hno Hn. apply find_absent. intros f Hf. apply Z.eqb_neq.
  destruct (Hno f Hf) as (H1 & H2 & H3). intuition congruence.
Qed.

(** C2. For a URL not yet in the store whose resolver response offers none
    of the identifiers 299, 298 and 136, the RPC ingestion throws the
    unacceptable-format error and persists nothing; but by then it has
    already started the download and launched the clip parser, which the
    trace records after the resolver call. *)
Theorem create_rejects_unusable_formats_after_download :
  forall env input u st formats,
    (forall g, In g (Web.gameplay (Web.store st)) ->
               Web.youtubeUrl g <> Web.in_youtubeUrl input) ->
    Web.getInfo env (Web.in_youtubeUrl input) = Some formats ->
    no_usable_format formats ->
    Web.create env input u st
    = (Throw unacceptable_rpc,
       Web.mkState (Web.store st)
         (Web.trace st ++
            [GetInfo (Web.in_youtubeUrl input);
             Download (Web.in_youtubeUrl input) (Web.cuid env ++ ".mp4");
             ParseClips (Web.cuid env) (Web.cuid env ++ ".mp4")])).
Proof.
  intros env input u st formats Hfresh Hinfo Hno.
  unfold Web.create, Web.gameplay_findUnique, Web.ytdl_getInfo, Web.perform,
    bind, gets, modify, throw, ret.
  rewrite find_absent.
  2:{ intros g Hg. apply String.eqb_neq. now apply Hfresh. }
  simpl. rewrite Hinfo.
  rewrite !(find_itag_unusable Hno) by auto.
  simpl. unfold unacceptable_rpc. now rewrite <- !app_assoc.
Qed.

Lemma create_rejects_unusable_formats_after_download_witness :
  Web.create (Samples.webEnv [Web.mkFormat 18; Web.mkFormat 22])
    (Web.mkCreateInput Samples.urlB Web.VAL) Samples.bob Samples.web0
  = (Throw unacceptable_rpc,
     Web.mkState (Web.store Samples.web0)
       [GetInfo Samples.urlB;
        Download Samples.urlB "ck1.mp4";
        ParseClips "ck1" "ck1.mp4"]).
Proof.
  apply (create_rejects_unusable_formats_after_download
           (Samples.webEnv [Web.mkFormat 18; Web.mkFormat 22])
           (Web.mkCreateInput Samples.urlB Web.VAL) Samples.bob Samples.web0
           (formats := [Web.mkFormat 18; Web.mkFormat 22])).
  - intros g [<-|[]]. discriminate.
  - reflexivity.
  - intros f [<-|[<-|[]]]; simpl; repeat split; discriminate.
Defined.

(** ** Updating the analysis flag *)

Section UpdateFacts.
Variable evaluator : Web.PermsArgs -> bool.

Lemma update_denied input u st g :
  find (fun g => Web.id g =? Web.up_gameplayId input)%string (Web.gameplay (Web.store st))
  = Some g ->
  evaluator (update_args input u g) = false ->
  Web.update evaluator input u st = (Throw (Web.server_error unauthorized_rpc), st).
Proof.
  intros Hfind Hdeny.
  unfold Web.update, Web.gameplay_findUniqueOrThrow, Web.gameplay_findUnique,
    tryCatch, bind, gets, ret, throw.
  rewrite Hfind. unfold update_args in Hdeny. now rewrite Hdeny.
Qed.

Lemma update_allowed input u st g :
  find (fun g => Web.id g =? Web.up_gameplayId input)%string (Web.gameplay (Web.store st))
  = Some g ->
  evaluator (update_args input u g) = true ->
  Web.update evaluator input u st
  = (Ok (Web.apply_update input g),
     Web.mkState
       (Web.mkStore
          (update_first (fun g => Web.id g =? Web.up_gameplayId input)%string
             (Web.apply_update input) (Web.gameplay (Web.store st)))
          (Web.gameplayVotes (Web.store st)) (Web.clips (Web.store st))
          (Web.users (Web.store st)))
       (Web.trace st)).
Proof.
  intros Hfind Hallow.
  unfold Web.update, Web.gameplay_findUniqueOrThrow, Web.gameplay_update,
    Web.gameplay_findUnique, Web.setGameplay, tryCatch, bind, gets, modify, ret, throw.
  rewrite Hfind. unfold update_args in Hallow. rewrite Hallow. simpl.
  now rewrite Hfind.
Qed.

End UpdateFacts.

Lemma updateFootage_found input st f :
  find (fun f => Backend.uuid f =? Backend.up_uuid input)%string
    (Backend.footageDocs (Backend.store st)) = Some f ->
  Backend.updateFootage input st
  = (Ok f,
     Backend.mkState
       (Backend.mkStore
          (update_first (fun f => Backend.uuid f =? Backend.up_uuid input)%string
             (Backend.updatedFootage input) (Backend.footageDocs (Backend.store st)))
          (Backend.clipDocs (Backend.store st)))
       (Backend.trace st)).
Proof.
  intros Hfind.
  unfold Backend.updateFootage, Backend.Footage_findOneAndUpdate, Backend.Footage_findOne,
    Backend.setFootage, tryCatch, bind, gets, modify, ret.
  now rewrite Hfind.
Qed.

Lemma update_args_flag_change input u g :
  Web.isAnalyzed g <> Web.up_isAnalyzed input ->
  update_args input u g = mod_args u g.
Proof.
  intros Hflag. unfold update_args, mod_args.
  now rewrite (proj2 (Bool.eqb_false_iff _ _) Hflag).
Qed.

(** C3, as the code has it.  On the RPC layer an update that changes the
    analysis flag is put to the permission evaluator at the moderator
    level: when the evaluator denies the caller the update throws and the
    state is unchanged, when it allows the caller the update succeeds and
    the stored row carries the new flag.  The path-style HTTP handler
    evaluates no permission: every update of an existing document succeeds
    and is stored. *)
Theorem update_flag_gated_on_rpc_not_on_http :
  (forall evaluator input u st g,
      find (fun g => Web.id g =? Web.up_gameplayId input)%string
        (Web.gameplay (Web.store st)) = Some g ->
      Web.isAnalyzed g <> Web.up_isAnalyzed input ->
      (evaluator (mod_args u g) = false ->
       exists e, Web.update evaluator input u st = (Throw e, st))
      /\
      (evaluator (mod_args u g) = true ->
       exists st',
         Web.update evaluator input u st = (Ok (Web.apply_update input g), st')
         /\ find (fun g => Web.id g =? Web.up_gameplayId input)%string
              (Web.gameplay (Web.store st')) = Some (Web.apply_update input g)
         /\ Web.isAnalyzed (Web.apply_update input g) = Web.up_isAnalyzed input))
  /\
  (forall input st f,
      find (fun f => Backend.uuid f =? Backend.up_uuid input)%string
        (Backend.footageDocs (Backend.store st)) = Some f ->
      exists st',
        Backend.updateFootage input st = (Ok f, st')
        /\ find (fun f => Backend.uuid f =? Backend.up_uuid input)%string
             (Backend.footageDocs (Backend.store st'))
           = Some (Backend.updatedFootage input f)).
Proof.
  split.
  - intros evaluator input u st g Hfind Hflag.
    pose proof (@update_args_flag_change input u g Hflag) as Hargs.
    split.
    + intros Hdeny. eexists.
      apply update_denied with (g := g); [exact Hfind | now rewrite Hargs].
    + intros Hallow. eexists. split; [|split].
      * apply update_allowed with (g := g); [exact Hfind | now rewrite Hargs].
      * simpl. apply find_update_first; [exact Hfind|].
        simpl. now apply find_some in Hfind.
      * reflexivity.
  - intros input st f Hfind. eexists. split.
    + now apply updateFootage_found.
    + simpl. apply find_update_first; [exact Hfind|].
      simpl. now apply find_some in Hfind.
Qed.

Lemma update_flag_gated_on_rpc_not_on_http_witness :
  (exists e,
      Web.update Web.hasPerms (Web.mkUpdateInput "g1" Web.VAL true) Samples.bob Samples.web0
      = (Throw e, Samples.web0))
  /\
  (exists st',
      Web.update Web.hasPerms (Web.mkUpdateInput "g1" Web.VAL true) Samples.mia Samples.web0
      = (Ok (Web.apply_update (Web.mkUpdateInput "g1" Web.VAL true) Samples.gameplayA), st')
      /\ find (fun g => Web.id g =? "g1")%string (Web.gameplay (Web.store st'))
         = Some (Web.apply_update (Web.mkUpdateInput "g1" Web.VAL true) Samples.gameplayA)
      /\ Web.isAnalyzed
           (Web.apply_update (Web.mkUpdateInput "g1" Web.VAL true) Samples.gameplayA) = true)
  /\
  (exists st',
      Backend.updateFootage (Backend.mkUpdateInput "f1" true false) Samples.backend0
      = (Ok Samples.footageA, st')
      /\ find (fun f => Backend.uuid f =? "f1")%string
           (Backend.footageDocs (Backend.store st'))
         = Some (Backend.updatedFootage (Backend.mkUpdateInput "f1" true false)
                   Samples.footageA)).
Proof.
  split; [|split].
  - apply (proj1 update_flag_gated_on_rpc_not_on_http Web.hasPerms
             (Web.mkUpdateInput "g1" Web.VAL true) Samples.bob Samples.web0
             Samples.gameplayA); [reflexivity | discriminate | reflexivity].
  - apply (proj1 update_flag_gated_on_rpc_not_on_http Web.hasPerms
             (Web.mkUpdateInput "g1" Web.VAL true) Samples.mia Samples.web0
             Samples.gameplayA); [reflexivity | discriminate | reflexivity].
  - apply (proj2 update_flag_gated_on_rpc_not_on_http
             (Backend.mkUpdateInput "f1" true false) Samples.backend0 Samples.footageA).
    reflexivity.
Defined.

(** C3 refuted as stated.  The HTTP handler takes no caller at all and
    stores the new flag for whoever sends the request; on the RPC layer the
    ordinary caller [bob] is turned away with INTERNAL_SERVER_ERROR, the
    UNAUTHORIZED error surviving only as its cause. *)
Lemma update_flag_unauthorized_counterexample :
  Backend.updateFootage (Backend.mkUpdateInput "f1" true false) Samples.backend0
  = (Ok Samples.footageA,
     Backend.mkState
       (Backend.mkStore [Backend.mkFootage "f1" "42" "ann" Samples.urlA false true]
          [Samples.clipA])
       [])
  /\
  Web.update Web.hasPerms (Web.mkUpdateInput "g1" Web.VAL true) Samples.bob Samples.web0
  = (Throw (Web.TRPCError Web.INTERNAL_SERVER_ERROR
              (Some "An error occurred in the server") (Some unauthorized_rpc)),
     Samples.web0)
  /\
  Web.TRPCError Web.INTERNAL_SERVER_ERROR
    (Some "An error occurred in the server") (Some unauthorized_rpc)
  <> unauthorized_rpc.
Proof.
  split; [reflexivity | split; [reflexivity | discriminate]].
Qed.

(** ** Deleting a footage record *)

(** C4, as the code has it.  Neither delete operation issues a secondary
    delete: whatever the request and its outcome, the clip and vote records
    are left exactly as they were, no external effect is performed, and
    the only change to the store is that the addressed footage record is
    removed. *)
Theorem delete_removes_the_footage_record_only :
  (forall uuid st,
      let st' := snd (Backend.deleteFootage uuid st) in
      Backend.clipDocs (Backend.store st') = Backend.clipDocs (Backend.store st)
      /\ Backend.trace st' = Backend.trace st
      /\ Backend.footageDocs (Backend.store st')
         = remove_first (fun f => Backend.uuid f =? uuid)%string
             (Backend.footageDocs (Backend.store st)))
  /\
  (forall evaluator gameplayId u st,
      let st' := snd (Web.delete evaluator gameplayId u st) in
      Web.clips (Web.store st') = Web.clips (Web.store st)
      /\ Web.gameplayVotes (Web.store st') = Web.gameplayVotes (Web.store st)
      /\ Web.trace st' = Web.trace st
      /\ (Web.gameplay (Web.store st') = Web.gameplay (Web.store st)
          \/ Web.gameplay (Web.store st')
             = remove_first (fun g => Web.id g =? gameplayId)%string
                 (Web.gameplay (Web.store st)))).
Proof.
  split.
  - intros uuid st.
    unfold Backend.deleteFootage, Backend.Footage_deleteOne, Backend.Footage_findOne,
      Backend.setFootage, bind, gets, modify, ret, throw.
    destruct (find _ (Backend.footageDocs (Backend.store st))); simpl; auto.
  - intros evaluator gameplayId u st.
    unfold Web.delete, Web.gameplay_findUniqueOrThrow, Web.gameplay_delete,
      Web.gameplay_findUnique, Web.setGameplay, tryCatch, bind, gets, modify, ret, throw.
    destruct (find _ (Web.gameplay (Web.store st))) as [g|] eqn:Hfind; simpl; auto.
    destruct (evaluator _); simpl; auto.
    rewrite Hfind; simpl; auto.
Qed.

(** C4 refuted as stated.  Deleting the footage document [f1], and deleting
    the gameplay row [g1] as its owner, both succeed, and afterwards the
    clip of [f1], the clip of [g1] and the vote on [g1] are still stored. *)
Lemma delete_leaves_clips_and_votes_counterexample :
  Backend.deleteFootage "f1" Samples.backend0
  = (Ok "Footage deleted successfully.",
     Backend.mkState (Backend.mkStore [] [Samples.clipA]) [])
  /\
  Web.delete Web.hasPerms "g1" Samples.ann Samples.web0
  = (Ok tt,
     Web.mkState
       (Web.mkStore [] [Samples.voteA] [Samples.segmentA]
          (Web.users (Web.store Samples.web0)))
       []).
Proof.
  split; reflexivity.
Qed.

(** ** Submitting a vote *)

(** C5, as the code has it.  For a caller with a non-empty id the
    vote-submission operation creates a vote record without looking at the
    votes already stored: it always succeeds and appends exactly one vote
    for the (user, footage) pair, so the number of votes of that pair grows
    by one whatever it was before. *)
Theorem review_creates_a_vote_unconditionally :
  forall env input u st,
    Web.su_id u <> EmptyString ->
    exists st',
      Web.review env input u st
      = (Ok "Updated the gameplay document successfully.", st')
      /\ Web.gameplayVotes (Web.store st')
         = (Web.gameplayVotes (Web.store st)
              ++ [Web.mkVote (Web.rowId env) (Web.rv_gameplayId input) (Web.su_id u)
                    (Web.rv_isGame input) (Web.rv_actualGame input)])%list
      /\ votes_of (Web.su_id u) (Web.rv_gameplayId input) (Web.gameplayVotes (Web.store st'))
         = S (votes_of (Web.su_id u) (Web.rv_gameplayId input)
                (Web.gameplayVotes (Web.store st))).
Proof.
  intros env input u st Hid.
  unfold Web.review, Web.gameplayVotes_create, Web.setVotes, bind, modify, ret.
  apply String.eqb_neq in Hid. rewrite Hid. simpl.
  eexists. split; [reflexivity|]. split; [reflexivity|].
  unfold votes_of. simpl. rewrite filter_app, length_app. simpl.
  rewrite !String.eqb_refl. simpl. lia.
Qed.

Lemma review_creates_a_vote_unconditionally_witness :
  exists st',
    Web.review (Samples.webEnv []) (Web.mkReviewInput "g1" true Web.VAL)
      Samples.mia Samples.web0
    = (Ok "Updated the gameplay document successfully.", st')
    /\ Web.gameplayVotes (Web.store st')
       = [Samples.voteA; Web.mkVote "g2" "g1" "u2" true Web.VAL]
    /\ votes_of "u2" "g1" (Web.gameplayVotes (Web.store st')) = 2%nat.
Proof.
  destruct (review_creates_a_vote_unconditionally (Samples.webEnv [])
              (Web.mkReviewInput "g1" true Web.VAL) Samples.mia Samples.web0)
    as (st' & Hrun & Hvotes & Hcount).
  - discriminate.
  - exists st'. split; [exact Hrun|]. split; [exact Hvotes|exact Hcount].
Defined.

(** C5 refuted as stated.  [mia] has already voted on [g1]; her second
    submission is accepted and the store then holds two votes of hers on
    that record. *)
Lemma review_accepts_second_vote_counterexample :
  votes_of "u2" "g1" (Web.gameplayVotes (Web.store Samples.web0)) = 1%nat
  /\
  Web.review (Samples.webEnv []) (Web.mkReviewInput "g1" false Web.CSG)
    Samples.mia Samples.web0
  = (Ok "Updated the gameplay document successfully.",
     Web.mkState
       (Web.mkStore [Samples.gameplayA]
          [Samples.voteA; Web.mkVote "g2" "g1" "u2" false Web.CSG]
          [Samples.segmentA] (Web.users (Web.store Samples.web0)))
       [])
  /\
  votes_of "u2" "g1" [Samples.voteA; Web.mkVote "g2" "g1" "u2" false Web.CSG] = 2%nat.
Proof.
  repeat split.
Qed.

(** ** Blacklisted callers *)

(** C6. A caller whose blacklist flag is set is turned away by the
    [isAuthed] middleware with FORBIDDEN before the procedure body runs,
    whatever the caller's id and role, whatever the procedure, its input,
    the permission evaluator and the stored owners; the state is left
    untouched.  In particular this holds for the two procedures that
    evaluate a permission level, [update] and [delete]. *)
Theorem blacklisted_caller_is_forbidden :
  (forall (A : Type) (handler : Web.SessionUser -> Web.P A) uid role st,
      Web.protectedProcedure handler
        (signed_in (Web.mkSessionUser uid role true)) st
      = (Throw forbidden_rpc, st))
  /\
  (forall evaluator input uid role st,
      Web.protectedProcedure (Web.update evaluator input)
        (signed_in (Web.mkSessionUser uid role true)) st
      = (Throw forbidden_rpc, st))
  /\
  (forall evaluator gameplayId uid role st,
      Web.protectedProcedure (Web.delete evaluator gameplayId)
        (signed_in (Web.mkSessionUser uid role true)) st
      = (Throw forbidden_rpc, st)).
Proof.
  repeat split.
Qed.

(** ** Pagination *)

Lemma getMany_runs page filterGames u st :
  1 <= page ->
  Web.getMany page filterGames u st
  = (Ok (map (fun g =>
                Web.mkDashRow g
                  (find (fun w => Web.user_id w =? Web.userId g)%string
                     (Web.users (Web.store st)))
                  (Z.of_nat (length (filter (Web.type_filter filterGames)
                                       (Web.gameplay (Web.store st))))))
           (firstn 10
              (skipn (Z.to_nat (page * 10 - 10))
                 (filter (Web.type_filter filterGames) (Web.gameplay (Web.store st)))))),
     st).
Proof.
  intros Hpage.
  assert (Hskip : (page * 10 - 10 <? 0) = false) by (apply Z.ltb_ge; lia).
  unfold Web.getMany, Web.gameplay_count, Web.gameplay_findMany, Web.include_user,
    tryCatch, bind, gets, ret, throw.
  destruct filterGames as [t|]; rewrite Hskip; reflexivity.
Qed.

(** Below page 1 the computed skip is negative, the store client refuses
    the query and the listing throws NOT_FOUND without returning a row. *)
Lemma getMany_rejects_page_below_one page filterGames u st :
  page < 1 ->
  Web.getMany page filterGames u st = (Throw Web.not_found_inputs, st).
Proof.
  intros Hpage.
  assert (Hskip : (page * 10 - 10 <? 0) = true) by (apply Z.ltb_lt; lia).
  unfold Web.getMany, Web.gameplay_count, Web.gameplay_findMany,
    tryCatch, bind, gets, ret, throw.
  destruct filterGames as [t|]; rewrite Hskip; reflexivity.
Qed.

(** C7, as the code has it.  For every page number [page >= 1] the listing
    succeeds and returns the rows of the (optionally category-filtered)
    table from offset [page * 10 - 10] on, at most 10 of them, in table
    order; for page 2 the i-th returned row, i below 10, is the row at
    offset [10 + i].  For every page number below 1 the listing throws
    NOT_FOUND and returns no row. *)
Theorem getMany_page_window_from_page_one :
  forall page filterGames u st,
    (1 <= page ->
     exists rows,
       Web.getMany page filterGames u st = (Ok rows, st)
       /\ map Web.dash_gameplay rows
          = firstn 10
              (skipn (Z.to_nat (page * 10 - 10))
                 (filter (Web.type_filter filterGames) (Web.gameplay (Web.store st))))
       /\ (length rows <= 10)%nat
       /\ (page = 2 ->
           forall i, (i < 10)%nat ->
             nth_error (map Web.dash_gameplay rows) i
             = nth_error (filter (Web.type_filter filterGames)
                            (Web.gameplay (Web.store st))) (10 + i)))
    /\
    (page < 1 ->
     Web.getMany page filterGames u st = (Throw Web.not_found_inputs, st)).
Proof.
  intros page filterGames u st. split; [|now apply getMany_rejects_page_below_one].
  intros Hpage.
  eexists. split; [now apply getMany_runs|].
  assert (Hmap : forall (c : Z) (l : list Web.Gameplay),
             map Web.dash_gameplay
               (map (fun g =>
                       Web.mkDashRow g
                         (find (fun w => Web.user_id w =? Web.userId g)%string
                            (Web.users (Web.store st))) c) l) = l).
  { intros c l. rewrite map_map. simpl. apply map_id. }
  split; [apply Hmap|]. split.
  - rewrite length_map. apply firstn_le_length.
  - intros -> i Hi. rewrite Hmap.
    change (Z.to_nat (2 * 10 - 10)) with 10%nat.
    rewrite nth_error_firstn, nth_error_skipn.
    apply Nat.ltb_lt in Hi. now rewrite Hi.
Qed.

Lemma getMany_page_window_from_page_one_witness :
  (exists rows,
      Web.getMany 2 None Samples.bob Samples.web25 = (Ok rows, Samples.web25)
      /\ map Web.dash_gameplay rows = map Samples.row_of (seq 10 10)
      /\ (length rows <= 10)%nat
      /\ nth_error (map Web.dash_gameplay rows) 9 = Some (Samples.row_of 19))
  /\
  Web.getMany (-3) (Some Web.CSG) Samples.bob Samples.web25
  = (Throw Web.not_found_inputs, Samples.web25).
Proof.
  split.
  - destruct (proj1 (getMany_page_window_from_page_one 2 None Samples.bob Samples.web25))
      as (rows & Hrun & Hrows & Hlen & Hnth).
    + lia.
    + exists rows. split; [exact Hrun|]. split; [exact Hrows|]. split; [exact Hlen|].
      rewrite (Hnth eq_refl 9%nat) by lia. reflexivity.
  - apply (proj2 (getMany_page_window_from_page_one (-3) (Some Web.CSG) Samples.bob
                    Samples.web25)).
    lia.
Defined.

(** C7 refuted as stated.  For page number 0 of a table of 25 rows the
    listing returns no records from offset -10 on: it throws NOT_FOUND. *)
Lemma getMany_page_zero_counterexample :
  Web.getMany 0 None Samples.bob Samples.web25
  = (Throw (Web.TRPCError Web.NOT_FOUND
              (Some "No footage with the inputs provided could be found.") None),
     Samples.web25).
Proof.
  reflexivity.
Qed.

(** ** Flags of an ingested record *)





(** ** Picking a record to review *)

Lemma round_half_even_nonneg a b :
  0 <= a -> 0 < b -> 0 <= Web.round_half_even a b.
Proof.
  intros Ha Hb. unfold Web.round_half_even.
  assert (Hfl : 0 <= a / b) by (apply Z.div_pos; lia).
  destruct (2 * (a mod b) ?= b); [destruct (Z.even (a / b))| |]; lia.
Qed.

Lemma round_double_pos_nonneg p q :
  0 < p -> 0 < q -> 0 <= Qnum (Web.round_double_pos p q).
Proof.
  intros Hp Hq. unfold Web.round_double_pos.
  set (e := Z.max (Web.binary_exponent p q - 52) (- 1074)).
  destruct (0 <=? e) eqn:He; simpl.
  - apply Z.leb_le in He.
    assert (0 < 2 ^ e) by (apply Z.pow_pos_nonneg; lia).
    apply Z.mul_nonneg_nonneg; [|lia].
    apply round_half_even_nonneg; nia.
  - apply Z.leb_gt in He.
    assert (0 < 2 ^ (- e)) by (apply Z.pow_pos_nonneg; lia).
    apply round_half_even_nonneg; nia.
Qed.

Lemma round_double_nonneg x :
  0 <= Qnum x -> 0 <= Qnum (Web.round_double x).
Proof.
  intros Hx. unfold Web.round_double.
  destruct (Qnum x) as [|p|p] eqn:E; [simpl; lia | | lia].
  apply round_double_pos_nonneg; reflexivity.
Qed.

Lemma Qfloor_nonneg x : 0 <= Qnum x -> 0 <= Qfloor x.
Proof.
  intros Hx. destruct x as [n d]. simpl in *. apply Z.div_pos; lia.
Qed.

Lemma floor_scaled_zero r : Web.floor_scaled r 0 = 0.
Proof.
  unfold Web.floor_scaled, Web.round_double.
  replace (Qnum (r * inject_Z 0)) with 0 by (simpl; lia).
  reflexivity.
Qed.

Lemma floor_scaled_nonneg r n :
  (0 <= r)%Q -> 0 <= n -> 0 <= Web.floor_scaled r n.
Proof.
  intros Hr Hn. unfold Web.floor_scaled.
  apply Qfloor_nonneg, round_double_nonneg.
  unfold Qle in Hr. simpl in *. nia.
Qed.

(** The product is rounded before it is floored: for this draw and seven
    rows the exact product lies below 4, the double nearest to it is 4. *)
Lemma floor_scaled_rounds_first :
  Web.floor_scaled (2573485501354569 # 4503599627370496) 7 = 4
  /\ Qfloor ((2573485501354569 # 4503599627370496) * inject_Z 7) = 3.
Proof.
  split; vm_compute; reflexivity.
Qed.

Lemma no_vote_by_spec uid d g :
  Web.no_vote_by uid d g = true <->
  (forall v, In v (Web.gameplayVotes d) ->
     ~ (Web.vote_gameplayId v = Web.id g /\ Web.vote_userId v = uid)).
Proof.
  unfold Web.no_vote_by. rewrite negb_true_iff. split.
  - intros Hnone v Hv [Hg Hu].
    assert (Hex : existsb (fun v => (Web.vote_gameplayId v =? Web.id g)%string
                                    && (Web.vote_userId v =? uid)%string)
                    (Web.gameplayVotes d) = true).
    { apply existsb_exists. exists v. split; [exact Hv|].
      apply andb_true_iff. split; now apply String.eqb_eq. }
    congruence.
  - intros Hall. apply not_true_is_false. intros Hex.
    apply existsb_exists in Hex. destruct Hex as (v & Hv & Hboth).
    apply andb_true_iff in Hboth. destruct Hboth as [Hg Hu].
    apply String.eqb_eq in Hg, Hu. now apply (Hall v Hv).
Qed.

(** What [findMany] hands back is drawn from the rows the filter keeps. *)
Lemma findMany_subset where_ orderBy skip take st rows st' g :
  Web.gameplay_findMany where_ orderBy skip take st = (Ok rows, st') ->
  In g rows ->
  st' = st /\ In g (Web.gameplay (Web.store st)) /\ where_ (Web.store st) g = true.
Proof.
  unfold Web.gameplay_findMany, gets, throw.
  destruct (skip <? 0); [discriminate|].
  intros Hrun Hin. injection Hrun as <- <-. split; [reflexivity|].
  apply In_firstn, In_skipn in Hin.
  assert (Hkept : In g (filter (where_ (Web.store st)) (Web.gameplay (Web.store st)))).
  { destruct orderBy as [[key dir]|]; [now apply In_sort_by in Hin | exact Hin]. }
  now apply filter_In in Hkept.
Qed.

Lemma findMany_nothing_kept where_ orderBy skip take st :
  0 <= skip ->
  (forall g, In g (Web.gameplay (Web.store st)) -> where_ (Web.store st) g = false) ->
  Web.gameplay_findMany where_ orderBy skip take st = (Ok [], st).
Proof.
  intros Hskip Hnone. unfold Web.gameplay_findMany, gets.
  apply Z.ltb_ge in Hskip. rewrite Hskip.
  rewrite (filter_none _ _ Hnone).
  destruct orderBy as [[key dir]|]; simpl; now rewrite skipn_nil, firstn_nil.
Qed.

(** C9. A record returned by the review-item picker is a stored record on
    which the caller has no vote, and the state is left as it was; when
    every stored record already carries a vote of the caller the picker
    throws NOT_FOUND, and so it does on an empty store. *)
Theorem getReviewItems_picks_unvoted_or_not_found :
  (forall env u st item st',
      Web.getReviewItems env u st = (Ok item, st') ->
      st' = st
      /\ In (Web.ri_gameplay item) (Web.gameplay (Web.store st))
      /\ forall v, In v (Web.gameplayVotes (Web.store st)) ->
           ~ (Web.vote_gameplayId v = Web.id (Web.ri_gameplay item)
              /\ Web.vote_userId v = Web.su_id u))
  /\
  (forall env u st,
      unit_draws env ->
      (forall g, In g (Web.gameplay (Web.store st)) ->
         exists v, In v (Web.gameplayVotes (Web.store st))
                   /\ Web.vote_gameplayId v = Web.id g
                   /\ Web.vote_userId v = Web.su_id u) ->
      Web.getReviewItems env u st = (Throw not_found_rpc, st))
  /\
  (forall env u st,
      Web.gameplay (Web.store st) = [] ->
      Web.getReviewItems env u st = (Throw not_found_rpc, st)).
Proof.
  split; [|split].
  - intros env u st item st'.
    unfold Web.getReviewItems, Web.gameplay_count.
    unfold bind at 1. unfold gets at 1. unfold bind.
    match goal with
    | |- context [Web.gameplay_findMany ?w ?o ?s ?t st] =>
        destruct (Web.gameplay_findMany w o s t st) as [[rows|e|] st1] eqn:Hfm
    end; try discriminate.
    destruct rows as [|g rest]; [discriminate|].
    eapply findMany_subset in Hfm; [|now left]. destruct Hfm as (-> & Hin & Hno).
    unfold Web.include_user_votes, gets. intros Hrun. injection Hrun as <- <-.
    simpl. split; [reflexivity|]. split; [exact Hin|].
    now apply no_vote_by_spec.
  - intros env u st Hdraws Hvoted.
    unfold Web.getReviewItems, Web.gameplay_count.
    unfold bind at 1. unfold gets at 1. unfold bind.
    rewrite findMany_nothing_kept; [reflexivity| |].
    + apply floor_scaled_nonneg; [apply Hdraws | lia].
    + intros g Hg. apply not_true_is_false. intros Hno.
      destruct (Hvoted g Hg) as (v & Hv & Hvg & Hvu).
      now apply (proj1 (no_vote_by_spec _ _ _) Hno v Hv).
  - intros env u st Hempty.
    unfold Web.getReviewItems, Web.gameplay_count.
    unfold bind at 1. unfold gets at 1. unfold bind.
    rewrite Hempty. simpl.
    rewrite findMany_nothing_kept; [reflexivity| |].
    + rewrite floor_scaled_zero. lia.
    + rewrite Hempty. intros g [].
Qed.

Lemma getReviewItems_picks_unvoted_or_not_found_witness :
  (Samples.web0 = Samples.web0
   /\ In Samples.gameplayA (Web.gameplay (Web.store Samples.web0))
   /\ forall v, In v (Web.gameplayVotes (Web.store Samples.web0)) ->
        ~ (Web.vote_gameplayId v = "g1" /\ Web.vote_userId v = "u3"))
  /\
  Web.getReviewItems (Samples.webEnv []) Samples.mia Samples.web0
  = (Throw not_found_rpc, Samples.web0)
  /\
  Web.getReviewItems (Samples.webEnv []) Samples.mia
    (Web.mkState (Web.mkStore [] [] [] []) [])
  = (Throw not_found_rpc, Web.mkState (Web.mkStore [] [] [] []) []).
Proof.
  split; [|split].
  - apply (proj1 getReviewItems_picks_unvoted_or_not_found (Samples.webEnv [])
             Samples.bob Samples.web0
             (Web.mkReviewItem Samples.gameplayA
                (Some (Web.mkUser "u1" (Some "ann") Web.Ordinary false))
                [Samples.voteA])
             Samples.web0).
    reflexivity.
  - apply (proj1 (proj2 getReviewItems_picks_unvoted_or_not_found)).
    + intros n. simpl. split; [apply Qle_refl | reflexivity].
    + intros g [<-|[]]. exists Samples.voteA. simpl. repeat split. now left.
  - apply (proj2 (proj2 getReviewItems_picks_unvoted_or_not_found)). reflexivity.
Defined.

(** ** Empty listings *)

(** C10. When no footage document carries the requested user id,
    [getUserFootage] throws a 404 instead of returning an empty list, and
    when no clip document refers to the requested footage,
    [getFootageClips] throws a 404 as well; the state is unchanged. *)
Theorem empty_listing_is_not_found :
  (forall discordId st,
      (forall f, In f (Backend.footageDocs (Backend.store st)) ->
                 Backend.discordId f <> discordId) ->
      Backend.getUserFootage discordId st
      = (Throw (not_found_http "No footage found with the provided User ID."), st))
  /\
  (forall uuid st,
      (forall c, In c (Backend.clipDocs (Backend.store st)) ->
                 Backend.footage c <> uuid) ->
      Backend.getFootageClips uuid st
      = (Throw (not_found_http
                  ("No clips found for footage with uuid " ++ dquote ++ uuid ++ dquote)),
         st)).
Proof.
  split.
  - intros discordId st Hnone.
    unfold Backend.getUserFootage, Backend.Footage_find, bind, gets.
    rewrite filter_none; [reflexivity|].
    intros f Hf. apply String.eqb_neq. now apply Hnone.
  - intros uuid st Hnone.
    unfold Backend.getFootageClips, Backend.Clip_find, bind, gets.
    rewrite filter_none; [reflexivity|].
    intros c Hc. apply String.eqb_neq. now apply Hnone.
Qed.

Lemma empty_listing_is_not_found_witness :
  Backend.getUserFootage "7" Samples.backend0
  = (Throw (not_found_http "No footage found with the provided User ID."),
     Samples.backend0)
  /\
  Backend.getFootageClips "f9" Samples.backend0
  = (Throw (not_found_http
              ("No clips found for footage with uuid " ++ dquote ++ "f9" ++ dquote)),
     Samples.backend0).
Proof.
  split.
  - apply (proj1 empty_listing_is_not_found). intros f [<-|[]]. discriminate.
  - apply (proj2 empty_listing_is_not_found). intros c [<-|[]]. discriminate.
Defined.

(** * Further properties of the handlers *)

(** ** Keyed tables *)

Section KeyedTables.
Variable A : Type.
Variable key : A -> string.
Implicit Types (l : list A) (k : string).

Lemma find_key_none l k :
  find (fun x => key x =? k)%string l = None <-> ~ In k (map key l).
Proof.
  induction l as [|a r IH]; simpl.
  - split; [intros _ [] | reflexivity].
  - destruct (key a =? k)%string eqn:E.
    + apply String.eqb_eq in E. split; [discriminate | intros H; exfalso; apply H; now left].
    + apply String.eqb_neq in E. rewrite IH. split.
      * intros H [Ha|Hr]; [now apply E | now apply H].
      * intros H Hr. apply H. now right.
Qed.

Lemma find_key_some l k x :
  find (fun x => key x =? k)%string l = Some x -> In x l /\ key x = k.
Proof.
  intros H. apply find_some in H. destruct H as [Hin Hk].
  split; [exact Hin | now apply String.eqb_eq].
Qed.

Lemma find_key_app_new l k x :
  ~ In k (map key l) -> key x = k ->
  find (fun x => key x =? k)%string (l ++ [x]) = Some x.
Proof.
  induction l as [|a r IH]; simpl; intros Hnew Hk.
  - apply String.eqb_eq in Hk. now rewrite Hk.
  - destruct (key a =? k)%string eqn:E.
    + apply String.eqb_eq in E. exfalso. apply Hnew. now left.
    + apply IH; [|exact Hk]. intros Hr. apply Hnew. now right.
Qed.

Lemma NoDup_snoc (B : Type) (l : list B) (b : B) :
  NoDup l -> ~ In b l -> NoDup (l ++ [b]).
Proof.
  induction l as [|a r IH]; simpl; intros Hnd Hnew.
  - constructor; [intros [] | constructor].
  - inversion Hnd as [|? ? Ha Hr]; subst. constructor.
    + intros Hin. apply in_app_or in Hin. destruct Hin as [Hin|[<-|[]]].
      * now apply Ha.
      * apply Hnew. now left.
    + apply IH; [exact Hr|]. intros Hin. apply Hnew. now right.
Qed.

Lemma update_first_absent (p : A -> bool) (f : A -> A) l :
  find p l = None -> update_first p f l = l.
Proof.
  induction l as [|a r IH]; simpl; [reflexivity|].
  destruct (p a); [discriminate|]. intros H. now rewrite IH.
Qed.

Lemma remove_first_absent (p : A -> bool) l :
  find p l = None -> remove_first p l = l.
Proof.
  induction l as [|a r IH]; simpl; [reflexivity|].
  destruct (p a); [discriminate|]. intros H. now rewrite IH.
Qed.

Lemma map_update_first (B : Type) (col : A -> B) (p : A -> bool) (f : A -> A) l :
  (forall x, col (f x) = col x) ->
  map col (update_first p f l) = map col l.
Proof.
  intros Hcol. induction l as [|a r IH]; simpl; [reflexivity|].
  destruct (p a); simpl; [now rewrite Hcol | now rewrite IH].
Qed.

Lemma update_first_twice (p : A -> bool) (f : A -> A) l :
  (forall x, p (f x) = p x) -> (forall x, f (f x) = f x) ->
  update_first p f (update_first p f l) = update_first p f l.
Proof.
  intros Hp Hf. induction l as [|a r IH]; simpl; [reflexivity|].
  destruct (p a) eqn:E; simpl.
  - now rewrite Hp, E, Hf.
  - now rewrite E, IH.
Qed.

Lemma length_update_first (p : A -> bool) (f : A -> A) l :
  length (update_first p f l) = length l.
Proof.
  induction l as [|a r IH]; simpl; [reflexivity|].
  destruct (p a); simpl; [reflexivity | now rewrite IH].
Qed.

Lemma length_remove_first (p : A -> bool) l x :
  find p l = Some x -> S (length (remove_first p l)) = length l.
Proof.
  revert x. induction l as [|a r IH]; simpl; intros x; [discriminate|].
  destruct (p a); [reflexivity|]. intros H. simpl. now rewrite (IH x H).
Qed.

Lemma remove_first_key_gone l k :
  NoDup (map key l) ->
  find (fun x => key x =? k)%string (remove_first (fun x => key x =? k)%string l) = None.
Proof.
  induction l as [|a r IH]; simpl; intros Hnd; [reflexivity|].
  inversion Hnd as [|? ? Ha Hr]; subst.
  destruct (key a =? k)%string eqn:E.
  - apply String.eqb_eq in E. subst k. now apply find_key_none.
  - simpl. rewrite E. now apply IH.
Qed.

Lemma remove_first_keeps_other l k x :
  In x l -> key x <> k -> In x (remove_first (fun x => key x =? k)%string l).
Proof.
  induction l as [|a r IH]; simpl; [trivial|].
  intros [->|Hin] Hk.
  - apply String.eqb_neq in Hk. rewrite Hk. now left.
  - destruct (key a =? k)%string; [exact Hin|]. right. now apply IH.
Qed.

End KeyedTables.

(** ** POST /footage *)

Lemma fresh_url_find st url :
  fresh_url st url ->
  find (fun f => Backend.youtubeUrl f =? url)%string
    (Backend.footageDocs (Backend.store st)) = None.
Proof.
  intros Hfresh. apply find_absent. intros f Hf. apply String.eqb_neq. now apply Hfresh.
Qed.

(** The run of [createFootage] on a URL that is not stored yet. *)
Lemma createFootage_fresh env input st :
  fresh_url st (Backend.in_url input) ->
  let url := Backend.in_url input in
  let file := Backend.uuidv4 env ++ ".mp4" in
  let spawn := Spawn "python3" ["autoClip.py"; file; "clips"] in
  let at_ (docs : list Backend.Footage) (t : list Effect) :=
    Backend.mkState (Backend.mkStore docs (Backend.clipDocs (Backend.store st)))
      (Backend.trace st ++ t)%list in
  let docs := Backend.footageDocs (Backend.store st) in
  Backend.createFootage env input st =
  match Backend.getInfo env url with
  | None => (Throw (Backend.Http (Backend.createHttpError 406 "getInfo")),
             at_ docs [GetInfo url])
  | Some _ =>
      if Backend.writeFinishes env then
        (Throw (Backend.Http (Backend.createHttpError 406
                  "Cannot read properties of null (reading 'on')")),
         at_ docs [GetInfo url; Download url file; spawn])
      else (Pending, at_ docs [GetInfo url; Download url file])
  end.
Proof.
  intros Hfresh. pose proof (fresh_url_find Hfresh) as Hfind.
  destruct st as [[docs clips] tr]. simpl in *.
  unfold Backend.createFootage, Backend.Footage_findOne, Backend.ytdl_getInfo,
    Backend.spawn, Backend.perform, tryCatch, bind, gets, modify, ret, throw, never.
  simpl. rewrite Hfind. simpl.
  destruct (Backend.getInfo env (Backend.in_url input)); simpl; [|reflexivity].
  destruct (Backend.writeFinishes env); simpl; now rewrite <- !app_assoc.
Qed.

Lemma find_url_fresh st url :
  find (fun f => Backend.youtubeUrl f =? url)%string
    (Backend.footageDocs (Backend.store st)) = None ->
  fresh_url st url.
Proof.
  intros Hfind f Hf. apply String.eqb_neq.
  exact (find_none _ _ Hfind f Hf).
Qed.

Lemma createFootage_stored env input st y :
  find (fun f => Backend.youtubeUrl f =? Backend.in_url input)%string
    (Backend.footageDocs (Backend.store st)) = Some y ->
  Backend.createFootage env input st
  = (Throw (duplicate_http (Backend.in_url input)), st).
Proof.
  intros Hfind.
  unfold Backend.createFootage, Backend.Footage_findOne, bind, gets.
  now rewrite Hfind.
Qed.

(** X1. [createFootage] keeps the stored URLs pairwise distinct: whatever the
    request and however it ends, a store without two documents of the same
    URL is again such a store afterwards. *)
Theorem createFootage_keeps_urls_distinct :
  forall env input st,
    NoDup (backend_urls st) ->
    NoDup (backend_urls (snd (Backend.createFootage env input st))).
Proof.
  intros env input st Hnd.
  destruct (find (fun f => Backend.youtubeUrl f =? Backend.in_url input)%string
              (Backend.footageDocs (Backend.store st))) as [y|] eqn:Hfind.
  - now rewrite (@createFootage_stored env input st _ Hfind).
  - assert (Hnew : ~ In (Backend.in_url input) (backend_urls st))
      by now apply find_key_none.
    rewrite (@createFootage_fresh env input st (@find_url_fresh _ _ Hfind)).
    unfold backend_urls in *.
    destruct (Backend.getInfo env _); [|exact Hnd].
    destruct (Backend.writeFinishes env); exact Hnd.
Qed.

Lemma createFootage_keeps_urls_distinct_witness :
  NoDup (backend_urls
           (snd (Backend.createFootage Samples.backendEnv Samples.inputB Samples.backend0))).
Proof.
  apply createFootage_keeps_urls_distinct.
  simpl. constructor; [intros [] | constructor].
Defined.


(** X3. When the resolver rejects a URL that is not stored yet,
    [createFootage] answers 406, and all it has done by then is the
    resolver call: no download, no child process, no document. *)
Theorem createFootage_resolver_rejection :
  forall env input st,
    fresh_url st (Backend.in_url input) ->
    Backend.getInfo env (Backend.in_url input) = None ->
    exists msg,
      Backend.createFootage env input st
      = (Throw (Backend.Http (Backend.createHttpError 406 msg)),
         Backend.mkState (Backend.store st)
           (Backend.trace st ++ [GetInfo (Backend.in_url input)])).
Proof.
  intros env input st Hfresh Hinfo. eexists.
  rewrite (@createFootage_fresh env input st Hfresh), Hinfo.
  now destruct st as [[docs clips] tr].
Qed.

Lemma createFootage_resolver_rejection_witness :
  exists msg,
    Backend.createFootage Samples.rejectingEnv Samples.inputB Samples.backend0
    = (Throw (Backend.Http (Backend.createHttpError 406 msg)),
       Backend.mkState (Backend.store Samples.backend0) [GetInfo Samples.urlB]).
Proof.
  apply (@createFootage_resolver_rejection Samples.rejectingEnv Samples.inputB
           Samples.backend0).
  - intros f [<-|[]]. discriminate.
  - reflexivity.
Defined.

(** X4. When the download of a new URL never finishes writing, the request
    never settles: the download has been started, but no child process is
    launched and no document is stored. *)
Theorem createFootage_stalled_download_never_settles :
  forall env input st details,
    fresh_url st (Backend.in_url input) ->
    Backend.getInfo env (Backend.in_url input) = Some details ->
    Backend.writeFinishes env = false ->
    Backend.createFootage env input st
    = (Pending,
       Backend.mkState (Backend.store st)
         (Backend.trace st ++
            [GetInfo (Backend.in_url input);
             Download (Backend.in_url input) (Backend.uuidv4 env ++ ".mp4")])).
Proof.
  intros env input st details Hfresh Hinfo Hwrite.
  rewrite (@createFootage_fresh env input st Hfresh), Hinfo, Hwrite.
  now destruct st as [[docs clips] tr].
Qed.

Lemma createFootage_stalled_download_never_settles_witness :
  Backend.createFootage Samples.stalledEnv Samples.inputB Samples.backend0
  = (Pending,
     Backend.mkState (Backend.store Samples.backend0)
       [GetInfo Samples.urlB; Download Samples.urlB "f2.mp4"]).
Proof.
  apply (@createFootage_stalled_download_never_settles Samples.stalledEnv Samples.inputB
           Samples.backend0 "details").
  - intros f [<-|[]]. discriminate.
  - reflexivity.
  - reflexivity.
Defined.

(** X5. [createFootage] never resolves to a footage document: when it
    settles without an error its value is [undefined], also when the
    document was stored. *)
Theorem createFootage_never_returns_a_document :
  forall env input st f,
    fst (Backend.createFootage env input st) <> Ok (Some f).
Proof.
  intros env input st f.
  destruct (find (fun f => Backend.youtubeUrl f =? Backend.in_url input)%string
              (Backend.footageDocs (Backend.store st))) as [y|] eqn:Hfind.
  - rewrite (@createFootage_stored env input st _ Hfind). discriminate.
  - rewrite (@createFootage_fresh env input st (@find_url_fresh _ _ Hfind)).
    destruct (Backend.getInfo env _); [|discriminate].
    destruct (Backend.writeFinishes env); discriminate.
Qed.

(** ** PATCH and DELETE /footage/:uuid *)

Lemma updateFootage_state input st :
  snd (Backend.updateFootage input st)
  = Backend.mkState
      (Backend.mkStore
         (update_first (fun f => Backend.uuid f =? Backend.up_uuid input)%string
            (Backend.updatedFootage input) (Backend.footageDocs (Backend.store st)))
         (Backend.clipDocs (Backend.store st)))
      (Backend.trace st).
Proof.
  unfold Backend.updateFootage, Backend.Footage_findOneAndUpdate, Backend.Footage_findOne,
    Backend.setFootage, tryCatch, bind, gets, modify, ret, throw.
  now destruct (find _ (Backend.footageDocs (Backend.store st))).
Qed.

(** X6. Updating a uuid that is not stored answers 418 with the message of
    the 412 thrown inside the [try] (the 412 itself never reaches the
    caller), and the state is unchanged. *)
Theorem updateFootage_missing_is_418 :
  forall input st,
    (forall f, In f (Backend.footageDocs (Backend.store st)) ->
               Backend.uuid f <> Backend.up_uuid input) ->
    Backend.updateFootage input st = (Throw update_missing_http, st).
Proof.
  intros input st Hnone.
  assert (Hfind : find (fun f => Backend.uuid f =? Backend.up_uuid input)%string
                    (Backend.footageDocs (Backend.store st)) = None).
  { apply find_absent. intros f Hf. apply String.eqb_neq. now apply Hnone. }
  unfold Backend.updateFootage, Backend.Footage_findOneAndUpdate, Backend.Footage_findOne,
    Backend.setFootage, tryCatch, bind, gets, modify, ret, throw.
  rewrite Hfind. simpl. rewrite update_first_absent by exact Hfind.
  now destruct st as [[docs clips] tr].
Qed.

Lemma updateFootage_missing_is_418_witness :
  Backend.updateFootage (Backend.mkUpdateInput "f9" true true) Samples.backend0
  = (Throw update_missing_http, Samples.backend0).
Proof.
  apply (@updateFootage_missing_is_418 (Backend.mkUpdateInput "f9" true true)
           Samples.backend0).
  intros f [<-|[]]. discriminate.
Defined.

(** X7. [updateFootage] writes the two flags and nothing else: whatever the
    request, the stored uuids, owners, user names and URLs, the number of
    documents, the clips and the effect trace are as before. *)
Theorem updateFootage_touches_flags_only :
  forall input st,
    let st' := snd (Backend.updateFootage input st) in
    backend_uuids st' = backend_uuids st
    /\ backend_urls st' = backend_urls st
    /\ map Backend.discordId (Backend.footageDocs (Backend.store st'))
       = map Backend.discordId (Backend.footageDocs (Backend.store st))
    /\ map Backend.username (Backend.footageDocs (Backend.store st'))
       = map Backend.username (Backend.footageDocs (Backend.store st))
    /\ Backend.clipDocs (Backend.store st') = Backend.clipDocs (Backend.store st)
    /\ Backend.trace st' = Backend.trace st.
Proof.
  intros input st. simpl. rewrite updateFootage_state.
  unfold backend_uuids, backend_urls. simpl.
  repeat split; now apply map_update_first.
Qed.

(** X8. [updateFootage] is idempotent on the store: sending the same update
    a second time leaves the state the first one produced. *)
Theorem updateFootage_twice_is_once :
  forall input st,
    snd (Backend.updateFootage input (snd (Backend.updateFootage input st)))
    = snd (Backend.updateFootage input st).
Proof.
  intros input st. rewrite !updateFootage_state. simpl.
  now rewrite update_first_twice.
Qed.

Lemma deleteFootage_state uuid st :
  snd (Backend.deleteFootage uuid st)
  = Backend.mkState
      (Backend.mkStore
         (remove_first (fun f => Backend.uuid f =? uuid)%string
            (Backend.footageDocs (Backend.store st)))
         (Backend.clipDocs (Backend.store st)))
      (Backend.trace st).
Proof.
  unfold Backend.deleteFootage, Backend.Footage_deleteOne, Backend.Footage_findOne,
    Backend.setFootage, bind, gets, modify, ret, throw.
  now destruct (find _ (Backend.footageDocs (Backend.store st))).
Qed.

Lemma deleteFootage_outcome uuid st :
  fst (Backend.deleteFootage uuid st)
  = if isSome (find (fun f => Backend.uuid f =? uuid)%string
                 (Backend.footageDocs (Backend.store st)))
    then Ok "Footage deleted successfully."
    else Throw (footage_missing_http uuid).
Proof.
  unfold Backend.deleteFootage, Backend.Footage_deleteOne, Backend.Footage_findOne,
    Backend.setFootage, bind, gets, modify, ret, throw.
  now destruct (find _ (Backend.footageDocs (Backend.store st))).
Qed.

(** X9. Deleting a uuid that is not stored answers 404 and leaves the state
    unchanged. *)
Theorem deleteFootage_missing_is_404 :
  forall uuid st,
    (forall f, In f (Backend.footageDocs (Backend.store st)) -> Backend.uuid f <> uuid) ->
    Backend.deleteFootage uuid st = (Throw (footage_missing_http uuid), st).
Proof.
  intros uuid st Hnone.
  assert (Hfind : find (fun f => Backend.uuid f =? uuid)%string
                    (Backend.footageDocs (Backend.store st)) = None).
  { apply find_absent. intros f Hf. apply String.eqb_neq. now apply Hnone. }
  rewrite (surjective_pairing (Backend.deleteFootage uuid st)).
  rewrite deleteFootage_outcome, deleteFootage_state, Hfind.
  rewrite remove_first_absent by exact Hfind.
  now destruct st as [[docs clips] tr].
Qed.

Lemma deleteFootage_missing_is_404_witness :
  Backend.deleteFootage "f9" Samples.backend0
  = (Throw (footage_missing_http "f9"), Samples.backend0).
Proof.
  apply (@deleteFootage_missing_is_404 "f9" Samples.backend0).
  intros f [<-|[]]. discriminate.
Defined.

(** X10. In a store whose uuids are pairwise distinct, deleting a stored
    uuid succeeds, removes exactly one document and keeps every document
    of another uuid; the uuid is then gone, so that deleting it once more
    answers 404. *)
Theorem deleteFootage_removes_one_document :
  forall uuid st f,
    NoDup (backend_uuids st) ->
    In f (Backend.footageDocs (Backend.store st)) ->
    Backend.uuid f = uuid ->
    let st' := snd (Backend.deleteFootage uuid st) in
    fst (Backend.deleteFootage uuid st) = Ok "Footage deleted successfully."
    /\ S (length (Backend.footageDocs (Backend.store st')))
       = length (Backend.footageDocs (Backend.store st))
    /\ (forall f', In f' (Backend.footageDocs (Backend.store st)) ->
                   Backend.uuid f' <> uuid ->
                   In f' (Backend.footageDocs (Backend.store st')))
    /\ Backend.deleteFootage uuid st' = (Throw (footage_missing_http uuid), st').
Proof.
  intros uuid st f Hnd Hin Huuid. simpl.
  destruct (@find_present _ (fun f => Backend.uuid f =? uuid)%string _ f Hin)
    as [y Hy]; [now apply String.eqb_eq|].
  rewrite deleteFootage_outcome, deleteFootage_state, Hy. simpl.
  split; [reflexivity|]. split; [now apply length_remove_first with (x := y)|].
  split; [intros f' Hf' Hne; now apply remove_first_keeps_other|].
  pose proof (@remove_first_key_gone _ Backend.uuid
                (Backend.footageDocs (Backend.store st)) uuid Hnd) as Hgone.
  rewrite (surjective_pairing (Backend.deleteFootage uuid _)).
  rewrite deleteFootage_outcome, deleteFootage_state. simpl.
  rewrite Hgone. simpl. now rewrite remove_first_absent by exact Hgone.
Qed.

Lemma deleteFootage_removes_one_document_witness :
  fst (Backend.deleteFootage "f1" Samples.backend0) = Ok "Footage deleted successfully."
  /\ Backend.deleteFootage "f1" (snd (Backend.deleteFootage "f1" Samples.backend0))
     = (Throw (footage_missing_http "f1"), snd (Backend.deleteFootage "f1" Samples.backend0)).
Proof.
  destruct (@deleteFootage_removes_one_document "f1" Samples.backend0 Samples.footageA)
    as (Hok & _ & _ & Hagain).
  - simpl. constructor; [intros [] | constructor].
  - simpl. now left.
  - reflexivity.
  - split; [exact Hok | exact Hagain].
Defined.

(** ** GET /footage, /footage/user/:id and /footage/clips/:uuid *)

(** X11. For a user id that owns at least one document, [getUserFootage]
    returns exactly the stored documents of that user, in store order, and
    leaves the state unchanged. *)
Theorem getUserFootage_returns_the_owners_documents :
  forall discordId st f,
    In f (Backend.footageDocs (Backend.store st)) ->
    Backend.discordId f = discordId ->
    exists docs,
      Backend.getUserFootage discordId st = (Ok docs, st)
      /\ docs = filter (fun f => Backend.discordId f =? discordId)%string
                  (Backend.footageDocs (Backend.store st))
      /\ In f docs
      /\ (forall x, In x docs <->
                    In x (Backend.footageDocs (Backend.store st))
                    /\ Backend.discordId x = discordId).
Proof.
  intros discordId st f Hin Hid.
  assert (Hf : In f (filter (fun f => Backend.discordId f =? discordId)%string
                       (Backend.footageDocs (Backend.store st)))).
  { apply filter_In. split; [exact Hin | now apply String.eqb_eq]. }
  eexists. split; [|split; [reflexivity|split; [exact Hf|]]].
  - unfold Backend.getUserFootage, Backend.Footage_find, bind, gets, ret.
    destruct (filter _ (Backend.footageDocs (Backend.store st))); [contradiction|].
    reflexivity.
  - intros x. rewrite filter_In, String.eqb_eq. reflexivity.
Qed.

Lemma getUserFootage_returns_the_owners_documents_witness :
  exists docs,
    Backend.getUserFootage "42" Samples.backend0 = (Ok docs, Samples.backend0)
    /\ docs = [Samples.footageA].
Proof.
  destruct (@getUserFootage_returns_the_owners_documents "42" Samples.backend0
              Samples.footageA) as (docs & Hrun & Hdocs & _).
  - simpl. now left.
  - reflexivity.
  - exists docs. split; [exact Hrun | exact Hdocs].
Defined.

Section GetFootageFacts.
Variable sortByCreatedAtDesc : list Backend.Footage -> list Backend.Footage.

Lemma getFootage_by_uuid u st :
  u <> EmptyString ->
  Backend.getFootage sortByCreatedAtDesc (Some u) st
  = match find (fun f => Backend.uuid f =? u)%string
            (Backend.footageDocs (Backend.store st)) with
    | Some f => (Ok [f], st)
    | None => (Throw footage_by_uuid_missing_http, st)
    end.
Proof.
  intros Hu. apply String.eqb_neq in Hu.
  unfold Backend.getFootage, Backend.Footage_findOne, bind, gets, ret, throw.
  rewrite Hu. now destruct (find _ (Backend.footageDocs (Backend.store st))).
Qed.

End GetFootageFacts.

(** X12. Fetching by a non-empty uuid returns the one stored document of
    that uuid, or answers 404 when there is none.  Without a uuid (or with
    an empty one) the handler never fails, not even on an empty
    collection: whatever order the store sorts in, as long as sorting only
    reorders, the answer holds every stored document exactly once.  The
    state is unchanged in every case. *)
Theorem getFootage_by_uuid_or_all :
  forall sortByCreatedAtDesc st,
    (forall l, Permutation (sortByCreatedAtDesc l) l) ->
    (forall u,
        u <> EmptyString ->
        (forall f, In f (Backend.footageDocs (Backend.store st)) -> Backend.uuid f <> u) ->
        Backend.getFootage sortByCreatedAtDesc (Some u) st
        = (Throw footage_by_uuid_missing_http, st))
    /\
    (forall u f,
        u <> EmptyString ->
        NoDup (backend_uuids st) ->
        In f (Backend.footageDocs (Backend.store st)) ->
        Backend.uuid f = u ->
        Backend.getFootage sortByCreatedAtDesc (Some u) st = (Ok [f], st))
    /\
    (exists docs,
        Backend.getFootage sortByCreatedAtDesc None st = (Ok docs, st)
        /\ Permutation docs (Backend.footageDocs (Backend.store st))
        /\ length docs = length (Backend.footageDocs (Backend.store st)))
    /\
    Backend.getFootage sortByCreatedAtDesc (Some EmptyString) st
    = Backend.getFootage sortByCreatedAtDesc None st.
Proof.
  intros sortByCreatedAtDesc st Hsort. split; [|split; [|split; [|reflexivity]]].
  - intros u Hu Hnone. rewrite getFootage_by_uuid by exact Hu.
    rewrite find_absent; [reflexivity|].
    intros f Hf. apply String.eqb_neq. now apply Hnone.
  - intros u f Hu Hnd Hin Huuid. rewrite getFootage_by_uuid by exact Hu.
    destruct (@find_present _ (fun f => Backend.uuid f =? u)%string _ f Hin)
      as [y Hy]; [now apply String.eqb_eq|].
    rewrite Hy. destruct (find_key_some Backend.uuid _ _ Hy) as [Hyin Hyu].
    assert (y = f); [|now subst].
    clear Hy. unfold backend_uuids in Hnd. rewrite <- Huuid in Hyu. clear Huuid Hu u.
    induction (Backend.footageDocs (Backend.store st)) as [|a r IH];
      [contradiction|].
    simpl in Hnd. inversion Hnd as [|? ? Ha Hr]; subst.
    destruct Hyin as [->|Hyin], Hin as [->|Hin]; auto.
    + exfalso. apply Ha. rewrite Hyu. now apply in_map.
    + exfalso. apply Ha. rewrite <- Hyu. now apply in_map.
  - eexists. split; [reflexivity|]. split; [apply Hsort|].
    apply Permutation_length, Hsort.
Qed.

Lemma getFootage_by_uuid_or_all_witness :
  Backend.getFootage (@rev Backend.Footage) (Some "f9") Samples.backend0
  = (Throw footage_by_uuid_missing_http, Samples.backend0)
  /\
  Backend.getFootage (@rev Backend.Footage) (Some "f1") Samples.backend0
  = (Ok [Samples.footageA], Samples.backend0)
  /\
  exists docs,
    Backend.getFootage (@rev Backend.Footage) None Samples.backend0
    = (Ok docs, Samples.backend0)
    /\ Permutation docs [Samples.footageA]
    /\ length docs = 1%nat.
Proof.
  destruct (@getFootage_by_uuid_or_all (@rev Backend.Footage) Samples.backend0)
    as (Hmissing & Hfound & Hall & _).
  - intros l. apply Permutation_sym, Permutation_rev.
  - split; [|split].
    + apply Hmissing; [discriminate|]. intros f [<-|[]]. discriminate.
    + apply Hfound; [discriminate | | now left | reflexivity].
      simpl. constructor; [intros [] | constructor].
    + exact Hall.
Defined.

Lemma createFootage_store_unchanged env input st :
  Backend.store (snd (Backend.createFootage env input st)) = Backend.store st.
Proof.
  destruct (find (fun f => Backend.youtubeUrl f =? Backend.in_url input)%string
              (Backend.footageDocs (Backend.store st))) as [y|] eqn:Hfind.
  - now rewrite (@createFootage_stored env input st y Hfind).
  - rewrite (@createFootage_fresh env input st (@find_url_fresh _ _ Hfind)).
    destruct st as [[docs clips] tr].
    destruct (Backend.getInfo env _); [|reflexivity].
    destruct (Backend.writeFinishes env); reflexivity.
Qed.

(** X13. [createFootage] stores nothing: its child is spawned with
    [stdio: 'inherit'], so the handler throws on [python.stdout] before the
    'close' listener that would write the document is registered.
    Whatever the request and however it ends, the store is as before, and
    [getUserFootage] and [getFootage] answer afterwards what they answered
    before. *)
Theorem createFootage_stores_nothing :
  forall sortByCreatedAtDesc env input st,
    let st' := snd (Backend.createFootage env input st) in
    Backend.store st' = Backend.store st
    /\ (forall discordId,
          fst (Backend.getUserFootage discordId st')
          = fst (Backend.getUserFootage discordId st))
    /\ (forall uuid,
          fst (Backend.getFootage sortByCreatedAtDesc uuid st')
          = fst (Backend.getFootage sortByCreatedAtDesc uuid st)).
Proof.
  intros sortByCreatedAtDesc env input st. cbv zeta.
  pose proof (createFootage_store_unchanged env input st) as Hstore.
  set (st' := snd (Backend.createFootage env input st)) in *.
  split; [exact Hstore|]. split.
  - intros discordId.
    unfold Backend.getUserFootage, Backend.Footage_find, bind, gets, ret, throw.
    rewrite Hstore.
    now destruct (filter _ (Backend.footageDocs (Backend.store st))).
  - intros uuid.
    unfold Backend.getFootage, Backend.Footage_findOne, bind, gets, ret, throw.
    destruct uuid as [u|]; [|simpl; now rewrite Hstore].
    destruct (u =? EmptyString)%string; [simpl; now rewrite Hstore|].
    rewrite Hstore.
    now destruct (find _ (Backend.footageDocs (Backend.store st))).
Qed.

(** X14. A submission of a new URL whose resolver answers and whose
    download is written to its end is answered 406, after the download and
    after the child process was spawned.  As nothing was stored, the URL is
    still new afterwards: a later submission of it is not turned away as a
    duplicate but resolved and downloaded again. *)
Theorem createFootage_completed_download_is_406 :
  forall env input st details,
    fresh_url st (Backend.in_url input) ->
    Backend.getInfo env (Backend.in_url input) = Some details ->
    Backend.writeFinishes env = true ->
    let url := Backend.in_url input in
    let st' := snd (Backend.createFootage env input st) in
    (exists msg,
        Backend.createFootage env input st
        = (Throw (Backend.Http (Backend.createHttpError 406 msg)),
           Backend.mkState (Backend.store st)
             (Backend.trace st ++
                [GetInfo url;
                 Download url (Backend.uuidv4 env ++ ".mp4");
                 Spawn "python3" ["autoClip.py"; Backend.uuidv4 env ++ ".mp4"; "clips"]])))
    /\ fresh_url st' url
    /\ (forall env' input' details',
          Backend.in_url input' = url ->
          Backend.getInfo env' url = Some details' ->
          In (Download url (Backend.uuidv4 env' ++ ".mp4"))
            (Backend.trace (snd (Backend.createFootage env' input' st')))).
Proof.
  intros env input st details Hfresh Hinfo Hwrite. cbv zeta.
  assert (Hfresh' : fresh_url (snd (Backend.createFootage env input st))
                      (Backend.in_url input)).
  { intros f Hf. rewrite createFootage_store_unchanged in Hf. now apply Hfresh. }
  split; [|split; [exact Hfresh'|]].
  - eexists. rewrite (@createFootage_fresh env input st Hfresh), Hinfo, Hwrite.
    now destruct st as [[docs clips] tr].
  - intros env' input' details' Hsame Hinfo'.
    rewrite <- Hsame in Hfresh', Hinfo' |- *.
    rewrite (@createFootage_fresh env' input' _ Hfresh'), Hinfo'.
    destruct (Backend.writeFinishes env'); simpl;
      apply in_or_app; right; simpl; auto.
Qed.

Lemma createFootage_completed_download_is_406_witness :
  (exists msg,
      Backend.createFootage Samples.backendEnv Samples.inputB Samples.backend0
      = (Throw (Backend.Http (Backend.createHttpError 406 msg)),
         Backend.mkState (Backend.store Samples.backend0)
           [GetInfo Samples.urlB; Download Samples.urlB "f2.mp4";
            Spawn "python3" ["autoClip.py"; "f2.mp4"; "clips"]]))
  /\ In (Download Samples.urlB "f3.mp4")
       (Backend.trace
          (snd (Backend.createFootage Samples.runningEnv
                  (Backend.mkCreateInput "42" "ann" Samples.urlB)
                  (snd (Backend.createFootage Samples.backendEnv Samples.inputB
                          Samples.backend0))))).
Proof.
  destruct (@createFootage_completed_download_is_406 Samples.backendEnv Samples.inputB
              Samples.backend0 "details") as (Hrun & _ & Hagain).
  - intros f [<-|[]]. discriminate.
  - reflexivity.
  - reflexivity.
  - split; [exact Hrun|].
    apply (Hagain Samples.runningEnv (Backend.mkCreateInput "42" "ann" Samples.urlB)
             "details"); reflexivity.
Defined.

(** X15. [getFootageClips] looks at the clip collection only: it answers
    the same for a footage uuid whether or not that footage is stored, so
    after [deleteFootage] the clips of the deleted footage are still
    served. *)
Theorem getFootageClips_ignores_footage :
  forall uuid deleted st,
    fst (Backend.getFootageClips uuid (snd (Backend.deleteFootage deleted st)))
    = fst (Backend.getFootageClips uuid st).
Proof.
  intros uuid deleted st. rewrite deleteFootage_state.
  unfold Backend.getFootageClips, Backend.Clip_find, bind, gets, ret, throw. simpl.
  now destruct (filter _ (Backend.clipDocs (Backend.store st))).
Qed.

(** ** The create procedure *)

Lemma fresh_web_url_find st url :
  fresh_web_url st url ->
  find (fun g => Web.youtubeUrl g =? url)%string (Web.gameplay (Web.store st)) = None.
Proof.
  intros Hfresh. apply find_absent. intros g Hg. apply String.eqb_neq. now apply Hfresh.
Qed.

Lemma find_web_url_fresh st url :
  find (fun g => Web.youtubeUrl g =? url)%string (Web.gameplay (Web.store st)) = None ->
  fresh_web_url st url.
Proof.
  intros Hfind g Hg. apply String.eqb_neq. exact (find_none _ _ Hfind g Hg).
Qed.

Lemma create_stored env input u st y :
  find (fun g => Web.youtubeUrl g =? Web.in_youtubeUrl input)%string
    (Web.gameplay (Web.store st)) = Some y ->
  Web.create env input u st = (Throw duplicate_rpc, st).
Proof.
  intros Hfind. unfold Web.create, Web.gameplay_findUnique, bind, gets.
  now rewrite Hfind.
Qed.

(** The run of [create] on a URL that is not stored yet. *)
Lemma create_fresh env input u st :
  fresh_web_url st (Web.in_youtubeUrl input) ->
  let url := Web.in_youtubeUrl input in
  let d := Web.store st in
  let at_ (rows : list Web.Gameplay) (t : list Effect) :=
    Web.mkState
      (Web.mkStore rows (Web.gameplayVotes d) (Web.clips d) (Web.users d))
      (Web.trace st ++ t)%list in
  Web.create env input u st =
  match Web.getInfo env url with
  | None => (Throw (Web.LibError "getInfo"), at_ (Web.gameplay d) [GetInfo url])
  | Some formats =>
      match selected_itag formats with
      | None => (Throw unacceptable_rpc, at_ (Web.gameplay d) (ingestion_effects env url))
      | Some v =>
          match Web.gameplayTypeDefault env with
          | None =>
              (Throw (Web.LibError "Argument gameplayType is missing"),
               at_ (Web.gameplay d) (ingestion_effects env url))
          | Some defaultType =>
              (Ok (created_row env input u (Some v) defaultType),
               at_ (Web.gameplay d ++ [created_row env input u (Some v) defaultType])%list
                 (ingestion_effects env url))
          end
      end
  end.
Proof.
  intros Hfresh. pose proof (fresh_web_url_find Hfresh) as Hfind.
  destruct st as [[rows votes segs us] tr]. simpl in *.
  unfold Web.create, Web.gameplay_create, Web.gameplay_findUnique, Web.ytdl_getInfo,
    Web.perform, Web.setGameplay, bind, gets, modify, ret, throw.
  simpl. rewrite Hfind. simpl.
  destruct (Web.getInfo env (Web.in_youtubeUrl input)) as [formats|]; simpl;
    [|reflexivity].
  unfold selected_itag, ingestion_effects, created_row, unacceptable_rpc.
  destruct (Web.find_itag 299 formats) as [f1|]; simpl.
  - rewrite Hfind. simpl.
    destruct (Web.gameplayTypeDefault env); simpl; now rewrite <- !app_assoc.
  - destruct (Web.find_itag 298 formats) as [f2|]; simpl.
    + rewrite Hfind. simpl.
      destruct (Web.gameplayTypeDefault env); simpl; now rewrite <- !app_assoc.
    + destruct (Web.find_itag 136 formats) as [f3|]; simpl.
      * rewrite Hfind. simpl.
        destruct (Web.gameplayTypeDefault env); simpl; now rewrite <- !app_assoc.
      * now rewrite <- !app_assoc.
Qed.

Lemma find_itag_offered n formats :
  offers n formats -> exists f, Web.find_itag n formats = Some f /\ Web.itag f = n.
Proof.
  intros (f & Hf & Hn). unfold Web.find_itag.
  destruct (@find_present _ (fun format => Web.itag format =? n) _ f Hf) as [y Hy].
  - now apply Z.eqb_eq.
  - exists y. split; [exact Hy|]. apply find_some in Hy. now apply Z.eqb_eq.
Qed.

Lemma find_itag_not_offered n formats :
  ~ offers n formats -> Web.find_itag n formats = None.
Proof.
  intros Hno. apply find_absent. intros f Hf. apply Z.eqb_neq.
  intros Hn. apply Hno. now exists f.
Qed.

(** X16. The encoding a successful [create] stores as [videoFormat] follows
    a fixed order of preference over what the resolver offers: 299 when
    offered, otherwise 298 when offered, and otherwise 136, which is then
    among the offers. *)
Theorem create_prefers_299_then_298_then_136 :
  forall env input u st formats g st',
    Web.getInfo env (Web.in_youtubeUrl input) = Some formats ->
    Web.create env input u st = (Ok g, st') ->
    (offers 299 formats -> Web.videoFormat g = Some 299)
    /\ (~ offers 299 formats -> offers 298 formats -> Web.videoFormat g = Some 298)
    /\ (~ offers 299 formats -> ~ offers 298 formats ->
        Web.videoFormat g = Some 136 /\ offers 136 formats).
Proof.
  intros env input u st formats g st' Hinfo Hrun.
  destruct (find (fun g => Web.youtubeUrl g =? Web.in_youtubeUrl input)%string
              (Web.gameplay (Web.store st))) as [y|] eqn:Hfind.
  { rewrite (@create_stored env input u st y Hfind) in Hrun. discriminate. }
  rewrite (@create_fresh env input u st (@find_web_url_fresh _ _ Hfind)), Hinfo in Hrun.
  unfold selected_itag in Hrun.
  split; [|split].
  - intros H299. destruct (find_itag_offered H299) as (f & Hf & Hn).
    rewrite Hf, Hn in Hrun.
    destruct (Web.gameplayTypeDefault env); [|discriminate].
    now injection Hrun as <- <-.
  - intros N299 H298. rewrite (find_itag_not_offered N299) in Hrun.
    destruct (find_itag_offered H298) as (f & Hf & Hn).
    rewrite Hf, Hn in Hrun.
    destruct (Web.gameplayTypeDefault env); [|discriminate].
    now injection Hrun as <- <-.
  - intros N299 N298.
    rewrite (find_itag_not_offered N299), (find_itag_not_offered N298) in Hrun.
    destruct (Web.find_itag 136 formats) as [f|] eqn:H136; [|discriminate].
    simpl in Hrun.
    destruct (Web.gameplayTypeDefault env); [|discriminate].
    injection Hrun as <- <-. split; [reflexivity|].
    exists f. unfold Web.find_itag in H136. apply find_some in H136.
    destruct H136 as [Hin Htag]. split; [exact Hin | now apply Z.eqb_eq].
Qed.

Lemma create_prefers_299_then_298_then_136_witness :
  Web.videoFormat
    (Web.mkGameplay "g2" "u3" Samples.urlB Web.CSG false (Some 298) (Some Web.TF2))
  = Some 298.
Proof.
  apply (@create_prefers_299_then_298_then_136
           (Samples.webEnv [Web.mkFormat 136; Web.mkFormat 298; Web.mkFormat 18])
           (Web.mkCreateInput Samples.urlB Web.TF2) Samples.bob Samples.web0
           [Web.mkFormat 136; Web.mkFormat 298; Web.mkFormat 18]
           (Web.mkGameplay "g2" "u3" Samples.urlB Web.CSG false (Some 298) (Some Web.TF2))
           (snd (Web.create
                   (Samples.webEnv [Web.mkFormat 136; Web.mkFormat 298; Web.mkFormat 18])
                   (Web.mkCreateInput Samples.urlB Web.TF2) Samples.bob Samples.web0))).
  - reflexivity.
  - reflexivity.
  - intros (f & [<-|[<-|[<-|[]]]] & Hn); discriminate Hn.
  - exists (Web.mkFormat 298). split; [right; now left | reflexivity].
Defined.

(** X17. [create] keeps the stored URLs pairwise distinct, whatever the
    request and however it ends. *)
Theorem create_keeps_urls_distinct :
  forall env input u st,
    NoDup (web_urls st) ->
    NoDup (web_urls (snd (Web.create env input u st))).
Proof.
  intros env input u st Hnd.
  destruct (find (fun g => Web.youtubeUrl g =? Web.in_youtubeUrl input)%string
              (Web.gameplay (Web.store st))) as [y|] eqn:Hfind.
  - now rewrite (@create_stored env input u st y Hfind).
  - assert (Hnew : ~ In (Web.in_youtubeUrl input) (web_urls st))
      by now apply find_key_none.
    rewrite (@create_fresh env input u st (@find_web_url_fresh _ _ Hfind)).
    unfold web_urls in *.
    destruct (Web.getInfo env _) as [formats|]; [|exact Hnd].
    destruct (selected_itag formats); [|exact Hnd].
    destruct (Web.gameplayTypeDefault env); [|exact Hnd].
    simpl. rewrite map_app. simpl. now apply NoDup_snoc.
Qed.

Lemma create_keeps_urls_distinct_witness :
  NoDup (web_urls
           (snd (Web.create (Samples.webEnv [Web.mkFormat 299])
                   (Web.mkCreateInput Samples.urlB Web.VAL) Samples.bob Samples.web0))).
Proof.
  apply create_keeps_urls_distinct.
  simpl. constructor; [intros [] | constructor].
Defined.

(** X18. After a successful ingestion, every later submission of the same
    URL on the RPC layer is turned away with the duplicate error, without
    any effect and without touching the store. *)
Theorem create_resubmission_rejected :
  forall env input u st g st' env' input' u',
    Web.create env input u st = (Ok g, st') ->
    Web.in_youtubeUrl input' = Web.in_youtubeUrl input ->
    Web.create env' input' u' st' = (Throw duplicate_rpc, st').
Proof.
  intros env input u st g st' env' input' u' Hrun Hsame.
  destruct (find (fun g => Web.youtubeUrl g =? Web.in_youtubeUrl input)%string
              (Web.gameplay (Web.store st))) as [y|] eqn:Hfind.
  - rewrite (@create_stored env input u st y Hfind) in Hrun. discriminate.
  - rewrite (@create_fresh env input u st (@find_web_url_fresh _ _ Hfind)) in Hrun.
    destruct (Web.getInfo env _) as [formats|]; [|discriminate].
    destruct (selected_itag formats) as [v|]; [|discriminate].
    destruct (Web.gameplayTypeDefault env) as [dflt|]; [|discriminate].
    injection Hrun as <- <-.
    destruct (@find_present _
                (fun g => Web.youtubeUrl g =? Web.in_youtubeUrl input')%string
                (Web.gameplay (Web.store st)
                   ++ [created_row env input u (Some v) dflt])%list
                (created_row env input u (Some v) dflt)) as [z Hz].
    + apply in_or_app. right. now left.
    + simpl. rewrite Hsame. apply String.eqb_refl.
    + now apply create_stored with (y := z).
Qed.

Lemma create_resubmission_rejected_witness :
  Web.create Samples.webRejectingEnv (Web.mkCreateInput Samples.urlB Web.CSG) Samples.ann
    (snd (Web.create (Samples.webEnv [Web.mkFormat 299])
            (Web.mkCreateInput Samples.urlB Web.VAL) Samples.bob Samples.web0))
  = (Throw duplicate_rpc,
     snd (Web.create (Samples.webEnv [Web.mkFormat 299])
            (Web.mkCreateInput Samples.urlB Web.VAL) Samples.bob Samples.web0)).
Proof.
  apply (@create_resubmission_rejected (Samples.webEnv [Web.mkFormat 299])
           (Web.mkCreateInput Samples.urlB Web.VAL) Samples.bob Samples.web0
           (Web.mkGameplay "g2" "u3" Samples.urlB Web.CSG false (Some 299)
              (Some Web.VAL))).
  - reflexivity.
  - reflexivity.
Defined.

(** X19. When the resolver rejects a new URL, the error reaches the caller
    as it is (the procedure has no handler for it) and nothing beyond the
    resolver call has happened: no download, no clip parsing, no row. *)
Theorem create_resolver_rejection :
  forall env input u st,
    fresh_web_url st (Web.in_youtubeUrl input) ->
    Web.getInfo env (Web.in_youtubeUrl input) = None ->
    exists e,
      Web.create env input u st
      = (Throw (Web.LibError e),
         Web.mkState (Web.store st)
           (Web.trace st ++ [GetInfo (Web.in_youtubeUrl input)])).
Proof.
  intros env input u st Hfresh Hinfo. eexists.
  rewrite (@create_fresh env input u st Hfresh), Hinfo.
  now destruct st as [[rows votes segs us] tr].
Qed.

Lemma create_resolver_rejection_witness :
  exists e,
    Web.create Samples.webRejectingEnv (Web.mkCreateInput Samples.urlB Web.VAL)
      Samples.bob Samples.web0
    = (Throw (Web.LibError e),
       Web.mkState (Web.store Samples.web0) [GetInfo Samples.urlB]).
Proof.
  apply (@create_resolver_rejection Samples.webRejectingEnv
           (Web.mkCreateInput Samples.urlB Web.VAL) Samples.bob Samples.web0).
  - intros g [<-|[]]. discriminate.
  - reflexivity.
Defined.

(** ** The get and getClips procedures *)

Section ReadFacts.
Variable evaluator : Web.PermsArgs -> bool.

Lemma get_runs gameplayId u st :
  Web.get evaluator gameplayId u st
  = match find (fun g => Web.id g =? gameplayId)%string (Web.gameplay (Web.store st)) with
    | Some g =>
        if evaluator (owner_args u g) then (Ok g, st)
        else (Throw Web.not_found_gameplay, st)
    | None => (Throw Web.not_found_gameplay, st)
    end.
Proof.
  unfold Web.get, Web.gameplay_findUnique, bind, gets, ret, throw, owner_args.
  destruct (find _ (Web.gameplay (Web.store st))) as [g|]; [|reflexivity].
  now destruct (evaluator _).
Qed.

Lemma getClips_runs gameplayId u st :
  Web.getClips evaluator gameplayId u st
  = match find (fun g => Web.id g =? gameplayId)%string (Web.gameplay (Web.store st)) with
    | Some g =>
        if evaluator (mod_args u g)
        then (Ok (filter (fun c => Web.seg_gameplayId c =? Web.id g)%string
                    (Web.clips (Web.store st))), st)
        else (Throw unauthorized_rpc, st)
    | None => (Throw Web.not_found_gameplay, st)
    end.
Proof.
  unfold Web.getClips, Web.clips_of, Web.gameplay_findUnique, bind, gets, ret, throw,
    mod_args.
  destruct (find _ (Web.gameplay (Web.store st))) as [g|]; [|reflexivity].
  now destruct (evaluator _).
Qed.

End ReadFacts.

(** X20. Round trip on the RPC layer: the row a successful [create]
    returns carries the store-assigned id, the caller as owner and the
    submitted URL, and it is the row [get] returns afterwards under its
    id, for every caller the evaluator allows at the owner level, provided
    the id the store assigned was not in use. *)
Theorem create_then_get :
  forall evaluator env input u st g st' caller,
    Web.create env input u st = (Ok g, st') ->
    ~ In (Web.rowId env) (web_ids st) ->
    evaluator (owner_args caller g) = true ->
    Web.id g = Web.rowId env
    /\ Web.userId g = Web.su_id u
    /\ Web.youtubeUrl g = Web.in_youtubeUrl input
    /\ Web.get evaluator (Web.id g) caller st' = (Ok g, st').
Proof.
  intros evaluator env input u st g st' caller Hrun Hnew Hallow.
  destruct (find (fun g => Web.youtubeUrl g =? Web.in_youtubeUrl input)%string
              (Web.gameplay (Web.store st))) as [y|] eqn:Hfind.
  - rewrite (@create_stored env input u st y Hfind) in Hrun. discriminate.
  - rewrite (@create_fresh env input u st (@find_web_url_fresh _ _ Hfind)) in Hrun.
    destruct (Web.getInfo env _) as [formats|]; [|discriminate].
    destruct (selected_itag formats) as [v|]; [|discriminate].
    destruct (Web.gameplayTypeDefault env) as [dflt|]; [|discriminate].
    injection Hrun as <- <-. repeat split.
    rewrite get_runs. simpl.
    rewrite (@find_key_app_new _ Web.id (Web.gameplay (Web.store st)) (Web.rowId env)
               (created_row env input u (Some v) dflt) Hnew eq_refl).
    now rewrite Hallow.
Qed.

Lemma create_then_get_witness :
  Web.get Web.hasPerms "g2" Samples.bob
    (snd (Web.create (Samples.webEnv [Web.mkFormat 299])
            (Web.mkCreateInput Samples.urlB Web.VAL) Samples.bob Samples.web0))
  = (Ok (Web.mkGameplay "g2" "u3" Samples.urlB Web.CSG false (Some 299) (Some Web.VAL)),
     snd (Web.create (Samples.webEnv [Web.mkFormat 299])
            (Web.mkCreateInput Samples.urlB Web.VAL) Samples.bob Samples.web0)).
Proof.
  apply (@create_then_get Web.hasPerms (Samples.webEnv [Web.mkFormat 299])
           (Web.mkCreateInput Samples.urlB Web.VAL) Samples.bob Samples.web0
           (Web.mkGameplay "g2" "u3" Samples.urlB Web.CSG false (Some 299) (Some Web.VAL))
           (snd (Web.create (Samples.webEnv [Web.mkFormat 299])
                   (Web.mkCreateInput Samples.urlB Web.VAL) Samples.bob Samples.web0))
           Samples.bob).
  - reflexivity.
  - simpl. intros [H|[]]. discriminate H.
  - reflexivity.
Defined.

(** X21. [get] does not reveal what it withholds: a caller the evaluator
    denies at the owner level receives exactly the NOT_FOUND error a
    missing id produces, while an allowed caller receives the stored row
    of that id; the state is unchanged throughout. *)
Theorem get_hides_rows_from_denied_callers :
  forall evaluator gameplayId u st,
    (find (fun g => Web.id g =? gameplayId)%string (Web.gameplay (Web.store st)) = None ->
     Web.get evaluator gameplayId u st = (Throw Web.not_found_gameplay, st))
    /\
    (forall g,
        find (fun g => Web.id g =? gameplayId)%string (Web.gameplay (Web.store st))
        = Some g ->
        (evaluator (owner_args u g) = false ->
         Web.get evaluator gameplayId u st = (Throw Web.not_found_gameplay, st))
        /\
        (evaluator (owner_args u g) = true ->
         Web.get evaluator gameplayId u st = (Ok g, st) /\ Web.id g = gameplayId)).
Proof.
  intros evaluator gameplayId u st. rewrite get_runs. split.
  - now intros ->.
  - intros g Hfind. rewrite Hfind. split.
    + now intros ->.
    + intros ->. split; [reflexivity|].
      now destruct (find_key_some Web.id _ _ Hfind).
Qed.

Lemma get_hides_rows_from_denied_callers_witness :
  Web.get Web.hasPerms "g9" Samples.bob Samples.web0
  = (Throw Web.not_found_gameplay, Samples.web0)
  /\ Web.get Web.hasPerms "g1" Samples.bob Samples.web0
     = (Throw Web.not_found_gameplay, Samples.web0)
  /\ Web.get Web.hasPerms "g1" Samples.ann Samples.web0 = (Ok Samples.gameplayA, Samples.web0).
Proof.
  split; [|split].
  - apply (proj1 (get_hides_rows_from_denied_callers Web.hasPerms "g9" Samples.bob
                    Samples.web0)). reflexivity.
  - apply (proj2 (get_hides_rows_from_denied_callers Web.hasPerms "g1" Samples.bob
                    Samples.web0) Samples.gameplayA); reflexivity.
  - apply (proj2 (get_hides_rows_from_denied_callers Web.hasPerms "g1" Samples.ann
                    Samples.web0) Samples.gameplayA); reflexivity.
Defined.

(** X22. [getClips] answers NOT_FOUND for a missing id and UNAUTHORIZED
    (surfacing as such) for a caller the evaluator denies at the moderator
    level; an allowed caller receives exactly the stored clips that refer
    to the row, which may be none: an empty list is returned, not an
    error.  The state is unchanged throughout. *)
Theorem getClips_outcomes :
  forall evaluator gameplayId u st,
    (find (fun g => Web.id g =? gameplayId)%string (Web.gameplay (Web.store st)) = None ->
     Web.getClips evaluator gameplayId u st = (Throw Web.not_found_gameplay, st))
    /\
    (forall g,
        find (fun g => Web.id g =? gameplayId)%string (Web.gameplay (Web.store st))
        = Some g ->
        (evaluator (mod_args u g) = false ->
         Web.getClips evaluator gameplayId u st = (Throw unauthorized_rpc, st))
        /\
        (evaluator (mod_args u g) = true ->
         exists segs,
           Web.getClips evaluator gameplayId u st = (Ok segs, st)
           /\ (forall c, In c segs <->
                         In c (Web.clips (Web.store st))
                         /\ Web.seg_gameplayId c = gameplayId))).
Proof.
  intros evaluator gameplayId u st. rewrite getClips_runs. split.
  - now intros ->.
  - intros g Hfind. rewrite Hfind. split.
    + now intros ->.
    + intros ->. eexists. split; [reflexivity|].
      destruct (find_key_some Web.id _ _ Hfind) as [_ <-].
      intros c. rewrite filter_In, String.eqb_eq. reflexivity.
Qed.

Lemma getClips_outcomes_witness :
  Web.getClips Web.hasPerms "g9" Samples.mia Samples.web0
  = (Throw Web.not_found_gameplay, Samples.web0)
  /\ Web.getClips Web.hasPerms "g1" Samples.ann Samples.web0
     = (Throw unauthorized_rpc, Samples.web0)
  /\ exists segs,
       Web.getClips Web.hasPerms "g1" Samples.mia Samples.web0 = (Ok segs, Samples.web0)
       /\ (forall c, In c segs <->
                     In c (Web.clips (Web.store Samples.web0))
                     /\ Web.seg_gameplayId c = "g1").
Proof.
  split; [|split].
  - apply (proj1 (getClips_outcomes Web.hasPerms "g9" Samples.mia Samples.web0)).
    reflexivity.
  - apply (proj2 (getClips_outcomes Web.hasPerms "g1" Samples.ann Samples.web0)
             Samples.gameplayA); reflexivity.
  - apply (proj2 (getClips_outcomes Web.hasPerms "g1" Samples.mia Samples.web0)
             Samples.gameplayA); reflexivity.
Defined.

(** ** The update and delete procedures *)

Section MutationFacts.
Variable evaluator : Web.PermsArgs -> bool.

Lemma update_runs input u st :
  Web.update evaluator input u st
  = match find (fun g => Web.id g =? Web.up_gameplayId input)%string
            (Web.gameplay (Web.store st)) with
    | None => (Throw (Web.server_error (Web.LibError "NotFoundError")), st)
    | Some g =>
        if evaluator (update_args input u g) then
          (Ok (Web.apply_update input g),
           Web.mkState
             (Web.mkStore
                (update_first (fun g => Web.id g =? Web.up_gameplayId input)%string
                   (Web.apply_update input) (Web.gameplay (Web.store st)))
                (Web.gameplayVotes (Web.store st)) (Web.clips (Web.store st))
                (Web.users (Web.store st)))
             (Web.trace st))
        else (Throw (Web.server_error unauthorized_rpc), st)
    end.
Proof.
  destruct (find (fun g => Web.id g =? Web.up_gameplayId input)%string
              (Web.gameplay (Web.store st))) as [g|] eqn:Hfind.
  - destruct (evaluator (update_args input u g)) eqn:He.
    + now apply update_allowed.
    + now apply update_denied with (g := g).
  - unfold Web.update, Web.gameplay_findUniqueOrThrow, Web.gameplay_findUnique,
      tryCatch, bind, gets, ret, throw.
    now rewrite Hfind.
Qed.

Lemma delete_runs gameplayId u st :
  Web.delete evaluator gameplayId u st
  = match find (fun g => Web.id g =? gameplayId)%string (Web.gameplay (Web.store st)) with
    | None => (Throw (Web.server_error (Web.LibError "NotFoundError")), st)
    | Some g =>
        if evaluator (owner_args u g) then
          (Ok tt,
           Web.mkState
             (Web.mkStore
                (remove_first (fun g => Web.id g =? gameplayId)%string
                   (Web.gameplay (Web.store st)))
                (Web.gameplayVotes (Web.store st)) (Web.clips (Web.store st))
                (Web.users (Web.store st)))
             (Web.trace st))
        else (Throw (Web.server_error unauthorized_rpc), st)
    end.
Proof.
  unfold Web.delete, Web.gameplay_findUniqueOrThrow, Web.gameplay_delete,
    Web.gameplay_findUnique, Web.setGameplay, tryCatch, bind, gets, modify, ret, throw,
    owner_args.
  destruct (find _ (Web.gameplay (Web.store st))) as [g|] eqn:Hfind; [|reflexivity].
  destruct (evaluator _); [|reflexivity].
  simpl. now rewrite Hfind.
Qed.

End MutationFacts.




(** X24. [update] writes the category and the analysis flag of the
    addressed row and nothing else: whatever the request and its outcome,
    the stored ids, owners, URLs and encodings, the number of rows, the
    votes, clips and users and the effect trace are as before. *)
Theorem update_touches_category_and_flag_only :
  forall evaluator input u st,
    let st' := snd (Web.update evaluator input u st) in
    web_ids st' = web_ids st
    /\ web_urls st' = web_urls st
    /\ map Web.userId (Web.gameplay (Web.store st'))
       = map Web.userId (Web.gameplay (Web.store st))
    /\ map Web.videoFormat (Web.gameplay (Web.store st'))
       = map Web.videoFormat (Web.gameplay (Web.store st))
    /\ Web.gameplayVotes (Web.store st') = Web.gameplayVotes (Web.store st)
    /\ Web.clips (Web.store st') = Web.clips (Web.store st)
    /\ Web.users (Web.store st') = Web.users (Web.store st)
    /\ Web.trace st' = Web.trace st.
Proof.
  intros evaluator input u st. cbv zeta. rewrite update_runs.
  destruct (find _ (Web.gameplay (Web.store st))) as [g|];
    [destruct (evaluator _)|]; simpl; try (repeat split; reflexivity).
  unfold web_ids, web_urls. simpl.
  repeat split; now apply map_update_first.
Qed.

(** X25. An update that keeps the analysis flag as stored is put to the
    evaluator at the owner level, not the moderator level: when the
    evaluator allows the caller there, the update succeeds and the stored
    row carries the requested category with the flag unchanged; when it
    denies, the update fails and nothing changes. *)
Theorem update_without_flag_change_is_owner_level :
  forall evaluator input u st g,
    find (fun g => Web.id g =? Web.up_gameplayId input)%string
      (Web.gameplay (Web.store st)) = Some g ->
    Web.isAnalyzed g = Web.up_isAnalyzed input ->
    (evaluator (owner_args u g) = false ->
     exists e, Web.update evaluator input u st = (Throw e, st))
    /\
    (evaluator (owner_args u g) = true ->
     exists g' st',
       Web.update evaluator input u st = (Ok g', st')
       /\ find (fun g => Web.id g =? Web.up_gameplayId input)%string
            (Web.gameplay (Web.store st')) = Some g'
       /\ Web.gameplayType g' = Web.up_gameplayType input
       /\ Web.isAnalyzed g' = Web.isAnalyzed g
       /\ Web.youtubeUrl g' = Web.youtubeUrl g
       /\ Web.userId g' = Web.userId g).
Proof.
  intros evaluator input u st g Hfind Hflag.
  assert (Hargs : update_args input u g = owner_args u g).
  { unfold update_args, owner_args. rewrite Hflag. now rewrite Bool.eqb_reflx. }
  rewrite update_runs, Hfind, Hargs. split.
  - intros ->. now eexists.
  - intros ->. eexists. eexists. split; [reflexivity|]. split.
    + simpl. apply find_update_first; [exact Hfind|].
      simpl. now apply find_some in Hfind.
    + simpl. repeat split. now symmetry.
Qed.

Lemma update_without_flag_change_is_owner_level_witness :
  (exists e,
      Web.update Web.hasPerms (Web.mkUpdateInput "g1" Web.CSG false) Samples.bob Samples.web0
      = (Throw e, Samples.web0))
  /\
  (exists g' st',
      Web.update Web.hasPerms (Web.mkUpdateInput "g1" Web.CSG false) Samples.ann Samples.web0
      = (Ok g', st')
      /\ find (fun g => Web.id g =? "g1")%string (Web.gameplay (Web.store st')) = Some g'
      /\ Web.gameplayType g' = Web.CSG
      /\ Web.isAnalyzed g' = false
      /\ Web.youtubeUrl g' = Samples.urlA
      /\ Web.userId g' = "u1").
Proof.
  split.
  - apply (proj1 (@update_without_flag_change_is_owner_level Web.hasPerms
                    (Web.mkUpdateInput "g1" Web.CSG false) Samples.bob Samples.web0
                    Samples.gameplayA eq_refl eq_refl)).
    reflexivity.
  - apply (proj2 (@update_without_flag_change_is_owner_level Web.hasPerms
                    (Web.mkUpdateInput "g1" Web.CSG false) Samples.ann Samples.web0
                    Samples.gameplayA eq_refl eq_refl)).
    reflexivity.
Defined.

(** X26. [delete] is decided at the owner level.  A denied caller changes
    nothing.  For an allowed caller, in a store whose ids are pairwise
    distinct, exactly one row is removed and every row of another id is
    kept; afterwards [get] and [getClips] answer NOT_FOUND under the
    deleted id for every caller and evaluator, although the clip table is
    as it was. *)
Theorem delete_is_owner_level_and_final :
  forall evaluator gameplayId u st g,
    find (fun g => Web.id g =? gameplayId)%string (Web.gameplay (Web.store st)) = Some g ->
    (evaluator (owner_args u g) = false ->
     exists e, Web.delete evaluator gameplayId u st = (Throw e, st))
    /\
    (evaluator (owner_args u g) = true ->
     NoDup (web_ids st) ->
     exists st',
       Web.delete evaluator gameplayId u st = (Ok tt, st')
       /\ S (length (Web.gameplay (Web.store st'))) = length (Web.gameplay (Web.store st))
       /\ (forall g', In g' (Web.gameplay (Web.store st)) -> Web.id g' <> gameplayId ->
                      In g' (Web.gameplay (Web.store st')))
       /\ Web.clips (Web.store st') = Web.clips (Web.store st)
       /\ (forall evaluator' caller,
              Web.get evaluator' gameplayId caller st'
              = (Throw Web.not_found_gameplay, st')
              /\ Web.getClips evaluator' gameplayId caller st'
                 = (Throw Web.not_found_gameplay, st'))).
Proof.
  intros evaluator gameplayId u st g Hfind. rewrite delete_runs, Hfind. split.
  - intros ->. now eexists.
  - intros -> Hnd. eexists. split; [reflexivity|]. simpl.
    split; [now apply length_remove_first with (x := g)|].
    split; [intros g' Hg' Hne; now apply remove_first_keeps_other|].
    split; [reflexivity|].
    intros evaluator' caller. rewrite get_runs, getClips_runs. simpl.
    now rewrite (@remove_first_key_gone _ Web.id (Web.gameplay (Web.store st))
                   gameplayId Hnd).
Qed.

Lemma delete_is_owner_level_and_final_witness :
  (exists e, Web.delete Web.hasPerms "g1" Samples.bob Samples.web0 = (Throw e, Samples.web0))
  /\
  (exists st',
      Web.delete Web.hasPerms "g1" Samples.ann Samples.web0 = (Ok tt, st')
      /\ Web.clips (Web.store st') = [Samples.segmentA]
      /\ Web.getClips Web.hasPerms "g1" Samples.mia st'
         = (Throw Web.not_found_gameplay, st')).
Proof.
  destruct (@delete_is_owner_level_and_final Web.hasPerms "g1" Samples.bob Samples.web0
              Samples.gameplayA eq_refl) as [Hdenied _].
  destruct (@delete_is_owner_level_and_final Web.hasPerms "g1" Samples.ann Samples.web0
              Samples.gameplayA eq_refl) as [_ Hallowed].
  split.
  - apply Hdenied. reflexivity.
  - destruct Hallowed as (st' & Hrun & _ & _ & Hclips & Hgone).
    + reflexivity.
    + simpl. constructor; [intros [] | constructor].
    + exists st'. split; [exact Hrun|]. split; [exact Hclips|].
      exact (proj2 (Hgone Web.hasPerms Samples.mia)).
Defined.

(** ** Paging through the listing *)

(** X27. Every row of the listing is served on exactly the page its
    position determines: the row at offset [i] is the entry [i mod 10] of
    page [i / 10 + 1]. *)
Theorem getMany_serves_every_row_on_its_page :
  forall filterGames u st i g,
    nth_error (listed filterGames st) i = Some g ->
    exists rows,
      Web.getMany (Z.of_nat (i / 10) + 1) filterGames u st = (Ok rows, st)
      /\ nth_error (map Web.dash_gameplay rows) (i mod 10) = Some g.
Proof.
  intros filterGames u st i g Hnth.
  eexists. split; [apply getMany_runs; lia|].
  rewrite map_map. cbn [Web.dash_gameplay]. rewrite map_id.
  replace (Z.to_nat ((Z.of_nat (i / 10) + 1) * 10 - 10)) with (10 * (i / 10))%nat by lia.
  rewrite nth_error_firstn, nth_error_skipn.
  assert (Hlt : (i mod 10 <? 10)%nat = true)
    by (apply Nat.ltb_lt, Nat.mod_upper_bound; discriminate).
  rewrite Hlt, <- Nat.div_mod_eq. exact Hnth.
Qed.

Lemma getMany_serves_every_row_on_its_page_witness :
  exists rows,
    Web.getMany 3 None Samples.bob Samples.web25 = (Ok rows, Samples.web25)
    /\ nth_error (map Web.dash_gameplay rows) 4 = Some (Samples.row_of 24).
Proof.
  apply (@getMany_serves_every_row_on_its_page None Samples.bob Samples.web25 24%nat
           (Samples.row_of 24)).
  reflexivity.
Defined.

(** X28. Every row [getMany] returns carries the number of all listed rows
    (not of the page) as [gameplayCount] and the stored user of its owner;
    a page beyond the end of the listing is an empty list, not an error. *)
Theorem getMany_counts_all_rows_and_tolerates_late_pages :
  forall page filterGames u st,
    1 <= page ->
    exists rows,
      Web.getMany page filterGames u st = (Ok rows, st)
      /\ (forall r, In r rows ->
            Web.gameplayCount r = Z.of_nat (length (listed filterGames st))
            /\ Web.dash_user r
               = find (fun w => Web.user_id w =? Web.userId (Web.dash_gameplay r))%string
                   (Web.users (Web.store st)))
      /\ (Z.of_nat (length (listed filterGames st)) <= page * 10 - 10 -> rows = []).
Proof.
  intros page filterGames u st Hpage.
  eexists. split; [now apply getMany_runs|]. split.
  - intros r Hr. apply in_map_iff in Hr. destruct Hr as (g & <- & _). now split.
  - intros Hlate. fold (listed filterGames st).
    rewrite skipn_all2 by lia. reflexivity.
Qed.

Lemma getMany_counts_all_rows_and_tolerates_late_pages_witness :
  exists rows,
    Web.getMany 4 None Samples.bob Samples.web25 = (Ok rows, Samples.web25)
    /\ rows = [].
Proof.
  destruct (@getMany_counts_all_rows_and_tolerates_late_pages 4 None Samples.bob
              Samples.web25) as (rows & Hrun & _ & Hlate).
  - lia.
  - exists rows. split; [exact Hrun|]. apply Hlate. simpl. lia.
Defined.

(** ** Reviewing *)

Lemma filter_all (A : Type) (l : list A) : filter (fun _ => true) l = l.
Proof.
  induction l as [|a r IH]; simpl; [reflexivity | now rewrite IH].
Qed.

Lemma length_insert_by (A : Type) (le : A -> A -> bool) (a : A) (l : list A) :
  length (Web.insert_by le a l) = S (length l).
Proof.
  induction l as [|b r IH]; simpl; [reflexivity|].
  destruct (le a b); simpl; [reflexivity | now rewrite IH].
Qed.

Lemma length_sort_by (A : Type) (le : A -> A -> bool) (l : list A) :
  length (Web.sort_by le l) = length l.
Proof.
  unfold Web.sort_by. induction l as [|a r IH]; simpl; [reflexivity|].
  now rewrite length_insert_by, IH.
Qed.

Lemma first_after_skip (A : Type) (k : nat) (l : list A) :
  match firstn 1 (skipn k l) with
  | [] => (length l <= k)%nat
  | x :: _ => (k < length l)%nat /\ In x l
  end.
Proof.
  destruct (skipn k l) as [|x r] eqn:E; simpl.
  - assert (H : length (skipn k l) = 0%nat) by now rewrite E.
    rewrite length_skipn in H. lia.
  - assert (H : length (skipn k l) = S (length r)) by now rewrite E.
    rewrite length_skipn in H. split; [lia|].
    apply In_skipn with (n := k). rewrite E. now left.
Qed.

(** The run of [getReviewItems] when the third draw is not negative. *)
Lemma getReviewItems_runs env u st :
  (0 <= Web.Math_random env 2)%Q ->
  exists ordered,
    length ordered = length (eligible (Web.su_id u) st)
    /\ (forall g, In g ordered -> In g (eligible (Web.su_id u) st))
    /\ Web.getReviewItems env u st
       = match firstn 1 (skipn (review_skip env st) ordered) with
         | [] => (Throw not_found_rpc, st)
         | g :: _ =>
             (Ok (Web.mkReviewItem g
                    (find (fun w => Web.user_id w =? Web.userId g)%string
                       (Web.users (Web.store st)))
                    (filter (fun v => Web.vote_gameplayId v =? Web.id g)%string
                       (Web.gameplayVotes (Web.store st)))), st)
         end.
Proof.
  intros Hdraw.
  unfold Web.getReviewItems, Web.gameplay_count.
  unfold bind at 1. unfold gets at 1. unfold bind.
  rewrite filter_all.
  replace (Z.of_nat (length (Web.gameplay (Web.store st))) - 1 + 1)
    with (Z.of_nat (length (Web.gameplay (Web.store st)))) by lia.
  unfold Web.gameplay_findMany.
  assert (Hskip : (Web.floor_scaled (Web.Math_random env 2)
                     (Z.of_nat (length (Web.gameplay (Web.store st)))) <? 0) = false).
  { apply Z.ltb_ge. apply floor_scaled_nonneg; [exact Hdraw | lia]. }
  rewrite Hskip. unfold gets. fold (eligible (Web.su_id u) st). fold (review_skip env st).
  match goal with
  | |- context [skipn (review_skip env st) ?o] => exists o
  end.
  split; [|split].
  - destruct (Web.randomPick _ _) as [k|]; [|reflexivity].
    destruct (Web.randomPick _ _) as [d|]; [|reflexivity].
    destruct (Web.column k) as [key|]; [|reflexivity].
    destruct (Web.direction d) as [dir|]; [|reflexivity].
    apply length_sort_by.
  - intros g.
    destruct (Web.randomPick _ _) as [k|]; [|trivial].
    destruct (Web.randomPick _ _) as [d|]; [|trivial].
    destruct (Web.column k) as [key|]; [|trivial].
    destruct (Web.direction d) as [dir|]; [|trivial].
    apply In_sort_by.
  - change (Z.to_nat 1) with 1%nat.
    match goal with
    | |- context [firstn 1 ?l] => destruct (firstn 1 l) as [|g r]
    end; reflexivity.
Qed.

(** X29. With draws in the unit interval, [getReviewItems] succeeds exactly
    when the number of rows it skips (the floor of the double nearest to
    the draw times the number of all rows) is below the number of rows the
    caller has not voted on, and then returns one of those rows; otherwise
    it throws NOT_FOUND.  As the skip is drawn against the number of all
    rows, the picker can answer NOT_FOUND although unvoted rows exist. *)
Theorem getReviewItems_succeeds_iff_skip_is_small :
  forall env u st,
    unit_draws env ->
    ((review_skip env st < length (eligible (Web.su_id u) st))%nat ->
     exists item,
       Web.getReviewItems env u st = (Ok item, st)
       /\ In (Web.ri_gameplay item) (eligible (Web.su_id u) st))
    /\
    ((length (eligible (Web.su_id u) st) <= review_skip env st)%nat ->
     Web.getReviewItems env u st = (Throw not_found_rpc, st)).
Proof.
  intros env u st Hdraws.
  destruct (@getReviewItems_runs env u st (proj1 (Hdraws 2%nat)))
    as (ordered & Hlen & Hsub & Hrun).
  rewrite Hrun.
  pose proof (first_after_skip (review_skip env st) ordered) as Hfirst.
  destruct (firstn 1 (skipn (review_skip env st) ordered)) as [|g r]; split.
  - intros Hsmall. lia.
  - reflexivity.
  - intros _. eexists. split; [reflexivity|]. simpl. apply Hsub. apply Hfirst.
  - intros Hlarge. destruct Hfirst as [Hlt _]. lia.
Qed.

Lemma getReviewItems_succeeds_iff_skip_is_small_witness :
  In Samples.gameplayB (eligible "u2" Samples.web2)
  /\ Web.getReviewItems Samples.halfEnv Samples.mia Samples.web2
     = (Throw not_found_rpc, Samples.web2)
  /\ length (eligible "u2" Samples.web7) = 4%nat
  /\ review_skip Samples.roundingEnv Samples.web7 = 4%nat
  /\ Web.getReviewItems Samples.roundingEnv Samples.mia Samples.web7
     = (Throw not_found_rpc, Samples.web7).
Proof.
  split; [vm_compute; now left|].
  destruct (@getReviewItems_succeeds_iff_skip_is_small Samples.halfEnv Samples.mia
              Samples.web2) as [_ Hlarge].
  { intros n. split; [unfold Qle; simpl; lia | reflexivity]. }
  destruct (@getReviewItems_succeeds_iff_skip_is_small Samples.roundingEnv Samples.mia
              Samples.web7) as [_ Hrounded].
  { intros n. split; [unfold Qle; simpl; lia | reflexivity]. }
  split; [apply Hlarge; vm_compute; constructor|].
  split; [vm_compute; reflexivity|].
  split; [vm_compute; reflexivity|].
  apply Hrounded. vm_compute. constructor.
Defined.

Lemma getReviewItems_offers_unvoted env u st item st' :
  Web.getReviewItems env u st = (Ok item, st') ->
  Web.no_vote_by (Web.su_id u) (Web.store st) (Web.ri_gameplay item) = true.
Proof.
  unfold Web.getReviewItems, Web.gameplay_count.
  unfold bind at 1. unfold gets at 1. unfold bind.
  match goal with
  | |- context [Web.gameplay_findMany ?w ?o ?s ?t st] =>
      destruct (Web.gameplay_findMany w o s t st) as [[rows|e|] st1] eqn:Hfm
  end; try discriminate.
  destruct rows as [|g rest]; [discriminate|].
  eapply findMany_subset in Hfm; [|now left]. destruct Hfm as (-> & _ & Hno).
  unfold Web.include_user_votes, gets. intros Hrun. now injection Hrun as <- <-.
Qed.

(** X30. Once a caller with a non-empty id has submitted a vote on a row,
    the review-item picker never offers that row to the same caller
    again, whatever the draws. *)
Theorem reviewed_row_is_not_offered_again :
  forall env input u st env' item st'',
    Web.su_id u <> EmptyString ->
    Web.getReviewItems env' u (snd (Web.review env input u st)) = (Ok item, st'') ->
    Web.id (Web.ri_gameplay item) <> Web.rv_gameplayId input.
Proof.
  intros env input u st env' item st'' Hid Hpick Hsame.
  apply getReviewItems_offers_unvoted in Hpick.
  pose proof (proj1 (@no_vote_by_spec _ _ _) Hpick) as Hall.
  apply String.eqb_neq in Hid.
  apply (Hall (Web.mkVote (Web.rowId env) (Web.rv_gameplayId input) (Web.su_id u)
                  (Web.rv_isGame input) (Web.rv_actualGame input))).
  - unfold Web.review, Web.gameplayVotes_create, Web.setVotes, bind, modify, ret.
    rewrite Hid. simpl. apply in_or_app. right. now left.
  - simpl. split; [now symmetry | reflexivity].
Qed.

Lemma reviewed_row_is_not_offered_again_witness :
  Web.id Samples.gameplayB <> "g1".
Proof.
  apply (@reviewed_row_is_not_offered_again (Samples.webEnv [])
           (Web.mkReviewInput "g1" true Web.VAL) Samples.bob Samples.web2
           (Samples.webEnv [])
           (Web.mkReviewItem Samples.gameplayB None [])
           (snd (Web.review (Samples.webEnv []) (Web.mkReviewInput "g1" true Web.VAL)
                   Samples.bob Samples.web2))).
  - discriminate.
  - reflexivity.
Defined.
